(** * The natural-language-to-SQL pipeline of [llm_app.py] and [app.py]

    A shallow embedding of the response extractor
    ([extract_sql_from_response]), of the two query executors
    ([run_query], [query_db]), of the two SQL generators
    ([generate_sql_with_gpt], [ask_openai]) and of the session handling
    of [main], followed by the properties of the specification that are
    about them.

    Python strings are sequences of Unicode code points; they are
    modelled as lists of [N].  The two regular expressions are kept as
    syntax trees and run by a backtracking matcher that tries the
    alternatives in the order of Python's [re] module.  The effects of
    the program (the Streamlit session state, the messages it shows and
    the calls to the database and to the language model) are threaded
    through a small state-and-exception monad. *)

From Stdlib Require Import Ascii String DecimalString.
From Stdlib Require Import List NArith Bool Arith Lia.
Import ListNotations.

Set Implicit Arguments.

(** ** Python strings *)

Module PyStr.

Definition char := N.
Definition str := list char.

Definition of_string (s : string) : str :=
  map N_of_ascii (list_ascii_of_string s).

Definition eqb (a b : str) : bool :=
  if list_eq_dec N.eq_dec a b then true else false.

(** [str.isspace] on one code point; the regular expression class
    [\s] on [str] patterns is the same set. *)
Definition isspace (c : char) : bool :=
  ((9 <=? c) && (c <=? 13) || (28 <=? c) && (c <=? 32)
   || (c =? 133) || (c =? 160) || (c =? 5760)
   || (8192 <=? c) && (c <=? 8202)
   || (c =? 8232) || (c =? 8233) || (c =? 8239) || (c =? 8287)
   || (c =? 12288))%N.

Fixpoint lstrip (s : str) : str :=
  match s with
  | c :: s' => if isspace c then lstrip s' else s
  | [] => []
  end.

Fixpoint rstrip (s : str) : str :=
  match s with
  | [] => []
  | c :: s' =>
      match rstrip s' with
      | [] => if isspace c then [] else [c]
      | t => c :: t
      end
  end.

(** [s.strip()] *)
Definition strip (s : str) : str := rstrip (lstrip s).

(** Truth value of a string: the empty string is falsy. *)
Definition truthy (s : str) : bool :=
  match s with [] => false | _ => true end.

End PyStr.
Import PyStr.

Definition nl : string := String (ascii_of_nat 10) EmptyString.

(** ** Exceptions and results *)

(** A raised exception: its class name and [str(e)]. *)
Inductive exn : Type := PyExc (kind : string) (msg : str).

Definition exn_str (e : exn) : str := match e with PyExc _ m => m end.

Inductive result (A : Type) : Type :=
| Ok (a : A)
| Raise (e : exn).
Arguments Ok {A} a.
Arguments Raise {A} e.

(** [xs[i]] on a Python list. *)
Definition py_index {A} (xs : list A) (i : nat) : result A :=
  match nth_error xs i with
  | Some x => Ok x
  | None => Raise (PyExc "IndexError" (of_string "list index out of range"))
  end.

(** ** Regular expressions *)

Module Re.

Record flags := Flags { DOTALL : bool; IGNORECASE : bool }.

Inductive atom : Type :=
| AChar (c : char)   (* a literal character *)
| ADot               (* [.] *)
| ASpace.            (* [\s] *)

Inductive regex : Type :=
| Eps
| Atom (a : atom)
| Seq (r1 r2 : regex)
| Star (greedy : bool) (a : atom)   (* [a*] and [a*?] *)
| Opt (r : regex)                   (* [(?:r)?] *)
| Group (r : regex).                (* [(r)], the one capture group *)

(** Lower case of a code point, on the code points whose lower case
    is an ASCII character. *)
Definition lower (c : char) : char :=
  (if (65 <=? c) && (c <=? 90) then c + 32
   else if c =? 304 then 105
   else if c =? 8490 then 107
   else c)%N.

(** The extra case-insensitive equivalents of a lower-case letter. *)
Definition fixes (lo : char) : list char :=
  (if lo =? 105 then [305]
   else if lo =? 115 then [383]
   else [])%N.

Definition char_match (fl : flags) (p c : char) : bool :=
  if IGNORECASE fl
  then let lo := lower p in
       (c =? lo)%N || (lower c =? lo)%N || existsb (N.eqb c) (fixes lo)
  else (c =? p)%N.

Definition atom_match (fl : flags) (a : atom) (c : char) : bool :=
  match a with
  | AChar p => char_match fl p c
  | ADot => DOTALL fl || negb (c =? 10)%N
  | ASpace => isspace c
  end.

Section Matcher.
Variable fl : flags.
Variable R : Type.

(** Greedy repetition: the longest run first, then shorter ones. *)
Fixpoint star_max (a : atom) (s : str) (k : str -> option R) : option R :=
  match s with
  | c :: s' =>
      if atom_match fl a c
      then match star_max a s' k with
           | Some x => Some x
           | None => k s
           end
      else k s
  | [] => k []
  end.

(** Lazy repetition: the empty run first, then longer ones. *)
Fixpoint star_min (a : atom) (s : str) (k : str -> option R) : option R :=
  match k s with
  | Some x => Some x
  | None =>
      match s with
      | c :: s' => if atom_match fl a c then star_min a s' k else None
      | [] => None
      end
  end.

(** [run r s g k]: match [r] at the head of [s], with [g] the text
    of the capture group so far, and hand what is left to [k]; when
    [k] refuses, the next alternative of [r] is tried. *)
Fixpoint run (r : regex) (s : str) (g : option str)
         (k : str -> option str -> option R) : option R :=
  match r with
  | Eps => k s g
  | Atom a =>
      match s with
      | c :: s' => if atom_match fl a c then k s' g else None
      | [] => None
      end
  | Seq r1 r2 => run r1 s g (fun s1 g1 => run r2 s1 g1 k)
  | Star true a => star_max a s (fun s1 => k s1 g)
  | Star false a => star_min a s (fun s1 => k s1 g)
  | Opt r1 =>
      match run r1 s g k with
      | Some x => Some x
      | None => k s g
      end
  | Group r1 =>
      run r1 s g
          (fun s1 _ => k s1 (Some (firstn (length s - length s1) s)))
  end.
End Matcher.

(** One match attempt at the head of [s]: what follows the match and
    the group.  With [must_advance] an empty match is refused. *)
Definition match_at (fl : flags) (r : regex) (s : str)
           (must_advance : bool) : option (str * option str) :=
  run fl r s None
      (fun s' g =>
         if must_advance && (length s' =? length s) then None
         else Some (s', g)).

(** The text [findall] reports for a match of a pattern with one
    group: the group, or the empty string when it took no part. *)
Definition group_text (g : option str) : str :=
  match g with Some t => t | None => [] end.

(** The scan of [findall]: [skip] characters of [s] belong to the
    previous match.  After an empty match the search resumes at the
    same place and has to advance. *)
Fixpoint scan (fl : flags) (r : regex) (s : str) (skip : nat) : list str :=
  match skip with
  | S n => match s with _ :: s' => scan fl r s' n | [] => [] end
  | O =>
      let next (n : nat) :=
        match s with _ :: s' => scan fl r s' n | [] => [] end in
      match match_at fl r s false with
      | Some (rest, g) =>
          match length s - length rest with
          | S n => group_text g :: next n
          | O =>
              group_text g ::
              match match_at fl r s true with
              | Some (rest2, g2) =>
                  group_text g2 :: next (length s - length rest2 - 1)
              | None => next 0
              end
          end
      | None => next 0
      end
  end.

(** [re.findall(pattern, string, flags)] *)
Definition findall (r : regex) (s : str) (fl : flags) : list str :=
  scan fl r s 0.

Definition cat (rs : list regex) : regex := fold_right Seq Eps rs.
Definition lit (s : str) : regex := cat (map (fun c => Atom (AChar c)) s).

End Re.

(** ** The outside world and the monad of effects *)

(** A [pandas.DataFrame]: the column names and the rows. *)
Record DataFrame := { df_columns : list str; df_rows : list (list str) }.

(** [len(df)] *)
Definition df_len (df : DataFrame) : nat := List.length (df_rows df).

(** [pd.DataFrame()] *)
Definition empty_frame : DataFrame := {| df_columns := []; df_rows := [] |}.

(** A request to the chat-completion service. *)
Record ChatRequest := {
  model : string;
  messages : list (string * str);      (* role, content *)
  temperature : string;
  max_tokens : option nat
}.

(** The response of the service: [message.content] of each choice,
    which the service may leave null. *)
Record ChatCompletion := { choices : list (option str) }.

(** What the program does not control: the database file and the
    language-model service. *)
Record Env := {
  sqlite3_connect : result unit;
  read_sql_query : str -> result DataFrame;
  new_client : result unit;
  chat_completions_create : ChatRequest -> result ChatCompletion
}.

(** An entry of [st.session_state.query_history], a dictionary with
    the keys [question], [sql] and [rows]. *)
Record HistoryEntry := { question : str; sql : str; rows : nat }.

(** [st.session_state]; a key that was never assigned is [None] at the
    outer level, the Python value [None] is [Some None]. *)
Record SessionState := {
  generated_sql : option (option str);
  current_question : option (option str);
  query_history : option (list HistoryEntry)
}.

Definition fresh_session : SessionState :=
  {| generated_sql := None; current_question := None; query_history := None |}.

(** What a run shows and which calls it makes.  A call to the language
    model is logged with the session state it was issued in. *)
Inductive event : Type :=
| st_error (msg : str)
| st_info (msg : str)
| st_success (msg : str)
| st_code (code : str)
| st_dataframe (df : DataFrame)
| ev_connect
| ev_close
| ev_read_sql (query : str)
| ev_chat (req : ChatRequest) (seen : SessionState).

Record World := { session : SessionState; log : list event }.

Definition M (A : Type) : Type := World -> result A * World.

Definition ret {A} (a : A) : M A := fun w => (Ok a, w).

Definition bind {A B} (m : M A) (f : A -> M B) : M B :=
  fun w =>
    match m w with
    | (Ok a, w') => f a w'
    | (Raise e, w') => (Raise e, w')
    end.

Declare Scope py_scope.
Delimit Scope py_scope with py.
Notation "x <- m ;; k" := (bind m (fun x => k))
  (at level 61, m at next level, right associativity) : py_scope.
Notation "m ;; k" := (bind m (fun _ => k))
  (at level 61, right associativity) : py_scope.
Open Scope py_scope.

Definition raise {A} (e : exn) : M A := fun w => (Raise e, w).

(** [try: m / except Exception as e: h e] *)
Definition try_except {A} (m : M A) (h : exn -> M A) : M A :=
  fun w =>
    match m w with
    | (Ok a, w') => (Ok a, w')
    | (Raise e, w') => h e w'
    end.

(** [try: m / finally: f] *)
Definition try_finally {A} (m : M A) (f : M unit) : M A :=
  fun w =>
    match m w with
    | (r, w') =>
        match f w' with
        | (Ok _, w'') => (r, w'')
        | (Raise e, w'') => (Raise e, w'')
        end
    end.

Definition lift {A} (r : result A) : M A := fun w => (r, w).

Definition emit (e : event) : M unit :=
  fun w => (Ok tt, {| session := session w; log := log w ++ [e] |}).

Definition get_session : M SessionState := fun w => (Ok (session w), w).

Definition put_session (s : SessionState) : M unit :=
  fun w => (Ok tt, {| session := s; log := log w |}).

(** Reading [st.session_state.<key>]. *)
Definition read_key {A} (key : string) (f : SessionState -> option A) : M A :=
  s <- get_session ;;
  match f s with
  | Some v => ret v
  | None => raise (PyExc "AttributeError" (of_string key))
  end.

Definition set_generated_sql (v : option str) : M unit :=
  s <- get_session ;;
  put_session {| generated_sql := Some v;
                 current_question := current_question s;
                 query_history := query_history s |}.

Definition set_current_question (v : option str) : M unit :=
  s <- get_session ;;
  put_session {| generated_sql := generated_sql s;
                 current_question := Some v;
                 query_history := query_history s |}.

Definition set_query_history (v : list HistoryEntry) : M unit :=
  s <- get_session ;;
  put_session {| generated_sql := generated_sql s;
                 current_question := current_question s;
                 query_history := Some v |}.

(** ** Formatting *)

(** [str(n)] for a natural number. *)
Definition str_of_nat (n : nat) : str :=
  of_string (NilEmpty.string_of_uint (Nat.to_uint n)).

(** An optional string inside an f-string. *)
Definition fmt_opt (v : option str) : str :=
  match v with Some s => s | None => of_string "None" end.

(** Truth value of an optional string. *)
Definition truthy_opt (v : option str) : bool :=
  match v with Some s => truthy s | None => false end.

(** [a != b] on optional strings. *)
Definition opt_neq (a b : option str) : bool :=
  match a, b with
  | None, None => false
  | Some x, Some y => negb (PyStr.eqb x y)
  | _, _ => true
  end.

(** One call of the chat-completion service, logged with the session
    state of the moment. *)
Definition service_call (env : Env) (req : ChatRequest) : M ChatCompletion :=
  s <- get_session ;;
  emit (ev_chat req s) ;;
  lift (chat_completions_create env req).

(** ** [llm_app.py] *)

Module LlmApp.

Definition backtick : char := 96%N.
Definition fence : str := [backtick; backtick; backtick].

(** [sql_pattern]: the opening fence and the letters [sql], then
    white space (greedy), the group with a lazy run of any characters,
    white space (greedy) and the closing fence. *)
Definition sql_pattern : Re.regex :=
  Re.cat [Re.lit fence; Re.lit (of_string "sql");
          Re.Star true Re.ASpace; Re.Group (Re.Star false Re.ADot);
          Re.Star true Re.ASpace; Re.lit fence].

(** [code_pattern]: as [sql_pattern], with an optional non-capturing
    group holding a greedy run of any characters in the place of the
    letters [sql]. *)
Definition code_pattern : Re.regex :=
  Re.cat [Re.lit fence; Re.Opt (Re.Star true Re.ADot);
          Re.Star true Re.ASpace; Re.Group (Re.Star false Re.ADot);
          Re.Star true Re.ASpace; Re.lit fence].

Definition extract_sql_from_response (response_text : str) : result str :=
  let matches :=
    Re.findall sql_pattern response_text (Re.Flags true true) in
  if negb (length matches =? 0) then
    match py_index matches 0 with
    | Ok m => Ok (strip m)
    | Raise e => Raise e
    end
  else
    let matches :=
      Re.findall code_pattern response_text (Re.Flags true false) in
    if negb (length matches =? 0) then
      match py_index matches 0 with
      | Ok m => Ok (strip m)
      | Raise e => Raise e
      end
    else Ok (strip response_text).


Definition DATABASE_SCHEMA : str := of_string "
Database Schema:

LOOKUP TABLES:
- genders (gender_id INTEGER PRIMARY KEY, gender_desc TEXT)
- races (race_id INTEGER PRIMARY KEY, race_desc TEXT)
- marital_statuses (marital_status_id INTEGER PRIMARY KEY, marital_status_desc TEXT)
- languages (language_id INTEGER PRIMARY KEY, language_desc TEXT)
- lab_units (unit_id INTEGER PRIMARY KEY, unit_string TEXT)
- lab_tests (lab_test_id INTEGER PRIMARY KEY, lab_name TEXT, unit_id INTEGER)
- diagnosis_codes (diagnosis_code TEXT PRIMARY KEY, diagnosis_description TEXT)

CORE TABLES:
- patients (
    patient_id TEXT PRIMARY KEY,
    patient_gender INTEGER REFERENCES genders(gender_id),
    patient_dob TIMESTAMP,
    patient_race INTEGER REFERENCES races(race_id),
    patient_marital_status INTEGER REFERENCES marital_statuses(marital_status_id),
    patient_language INTEGER REFERENCES languages(language_id),
    patient_population_pct_below_poverty REAL
)

- admissions (
    patient_id TEXT,
    admission_id INTEGER,
    admission_start TIMESTAMP,
    admission_end TIMESTAMP,
    PRIMARY KEY (patient_id, admission_id)
)

- admission_primary_diagnoses (
    patient_id TEXT,
    admission_id INTEGER,
    diagnosis_code TEXT REFERENCES diagnosis_codes(diagnosis_code),
    PRIMARY KEY (patient_id, admission_id)
)

- admission_lab_results (
    patient_id TEXT,
    admission_id INTEGER,
    lab_value REAL,
    lab_datetime TIMESTAMP,
    lab_test_id INTEGER REFERENCES lab_tests(lab_test_id)
)

IMPORTANT NOTES:
- Use JOINs to get descriptive values from lookup tables
- patient_dob, admission_start, admission_end, and lab_datetime are TIMESTAMP types
- To calculate age: strftime('%Y','now') - strftime('%Y',patient_dob)
- To calculate length of stay in days: julianday(admission_end) - julianday(admission_start)
- Always use proper JOINs for foreign key relationships
".

(** Streamlit caches the connection; the database answers a later
    attempt as it answered the first, which is what [env] gives. *)
Definition get_db_connection (env : Env) : M (option unit) :=
  try_except
    (emit ev_connect ;;
     conn <- lift (sqlite3_connect env) ;;
     ret (Some conn))
    (fun e =>
       emit (st_error (of_string "Failed to connect to database: " ++ exn_str e)) ;;
       ret None).

Definition run_query (env : Env) (sql : str) : M (option DataFrame) :=
  conn <- get_db_connection env ;;
  match conn with
  | None => ret None
  | Some _ =>
      try_except
        (emit (ev_read_sql sql) ;;
         df <- lift (read_sql_query env sql) ;;
         ret (Some df))
        (fun e =>
           emit (st_error (of_string "Error executing query: " ++ exn_str e)) ;;
           ret None)
  end.

(** The client is cached as well; making it fails without a key. *)
Definition get_openai_client (env : Env) : M unit := lift (new_client env).

Definition prompt_of (question : str) : str :=
  of_string "
You are an SQLite expert. Given the following database schema and a user's question, generate a valid SQLite query.

" ++ DATABASE_SCHEMA ++ of_string "

User Question: " ++ question ++ of_string "

Requirements:
1. Generate ONLY the SQL query, wrapped in ```sql``` code blocks
2. Use proper JOINs to get descriptive names from lookup tables
3. Use appropriate aggregations (COUNT, AVG, SUM, etc.) when needed
4. Add LIMIT clauses for queries that might return many rows (default LIMIT 100)
5. Use proper date/time functions for TIMESTAMP columns (use julianday() and strftime())
6. Make sure the query is syntactically correct for SQLite
7. Add helpful column aliases using AS

Generate the SQL query:".

Definition request_of (question : str) : ChatRequest :=
  {| model := "gpt-4o-mini";
     messages := [("system"%string, of_string "You are an SQLite expert.");
                  ("user"%string, prompt_of question)];
     temperature := "0.1";
     max_tokens := Some 1000 |}.

(** [response.choices[0].message.content] handed to the extractor; a
    null content is refused by [re.findall]. *)
Definition content_of (response : ChatCompletion) : result str :=
  match py_index (choices response) 0 with
  | Ok (Some raw_text) => Ok raw_text
  | Ok None =>
      Raise (PyExc "TypeError"
               (of_string "expected string or bytes-like object, got 'NoneType'"))
  | Raise e => Raise e
  end.

Definition generate_sql_with_gpt (env : Env) (question : str)
  : M (option str * option ChatCompletion) :=
  get_openai_client env ;;
  let req := request_of question in
  try_except
    (response <- service_call env req ;;
     raw_text <- lift (content_of response) ;;
     sql_query <- lift (extract_sql_from_response raw_text) ;;
     ret (Some sql_query, Some response))
    (fun e =>
       emit (st_error (of_string "Error calling OpenAI API: " ++ exn_str e)) ;;
       ret (None, None)).

(** What the widgets return in one run of the script.  The editor is
    given the generated SQL as its value and returns the text it
    holds, which is that value unless the user changed it. *)
Record Widgets := {
  question_area : str;          (* "What would you like to know?" *)
  generate_clicked : bool;      (* "Generate SQL" *)
  clear_clicked : bool;         (* "Clear History" *)
  sql_editor : str -> str;      (* "Review and edit the SQL query if needed:" *)
  run_clicked : bool            (* "Run Query" *)
}.

Definition init_session : M unit :=
  s <- get_session ;;
  (match generated_sql s with None => set_generated_sql None | Some _ => ret tt end) ;;
  s <- get_session ;;
  (match current_question s with None => set_current_question None | Some _ => ret tt end) ;;
  s <- get_session ;;
  (match query_history s with None => set_query_history [] | Some _ => ret tt end).

(** One run of the script.  The titles, the sidebar and the rules,
    which neither read nor change anything, are left out. *)
Definition main (env : Env) (ui : Widgets) : M unit :=
  init_session ;;
  let user_question := question_area ui in
  let generate_button := generate_clicked ui in
  let clear_button := clear_clicked ui in
  user_question <-
    (if generate_button && truthy user_question then
       let user_question := strip user_question in
       cq <- read_key "current_question" current_question ;;
       (if opt_neq cq (Some user_question) then
          set_generated_sql None ;;
          set_current_question None
        else ret tt) ;;
       out <- generate_sql_with_gpt env user_question ;;
       let sql_query := fst out in
       (if truthy_opt sql_query then
          set_generated_sql sql_query ;;
          set_current_question (Some user_question)
        else ret tt) ;;
       ret user_question
     else ret user_question) ;;
  gs <- read_key "generated_sql" generated_sql ;;
  if truthy_opt gs then
    cq <- read_key "current_question" current_question ;;
    emit (st_info (of_string "**Question:** " ++ fmt_opt cq)) ;;
    let edited_sql := sql_editor ui (fmt_opt gs) in
    let run_button := run_clicked ui in
    if run_button && truthy (strip edited_sql) then
      df <- run_query env edited_sql ;;
      match df with
      | Some df =>
          h <- read_key "query_history" query_history ;;
          set_query_history
            (h ++ [{| question := user_question;
                      sql := edited_sql;
                      rows := df_len df |}]) ;;
          emit (st_success ([9989%N] ++ of_string " Query returned "
                            ++ str_of_nat (df_len df) ++ of_string " rows")) ;;
          emit (st_dataframe df)
      | None => ret tt
      end
    else ret tt
  else ret tt.

End LlmApp.

(** ** [app.py] *)

Module App.

(** [sql_query] is [None] when the model's answer had a null content;
    [pd.read_sql_query] refuses it. *)
Definition query_db (env : Env) (sql_query : option str) : M DataFrame :=
  emit ev_connect ;;
  lift (sqlite3_connect env) ;;
  try_finally
    (try_except
       (match sql_query with
        | Some q =>
            emit (ev_read_sql q) ;;
            df <- lift (read_sql_query env q) ;;
            ret df
        | None =>
            raise (PyExc "TypeError"
                     (of_string "execute() argument 1 must be str, not None"))
        end)
       (fun e =>
          emit (st_error (of_string "SQL error: " ++ exn_str e)) ;;
          ret empty_frame))
    (emit ev_close).

Definition request_of (prompt : str) : ChatRequest :=
  {| model := "gpt-4";
     messages :=
       [("system"%string,
         of_string "You are a helpful assistant that generates SQL queries for a SQLite database.");
        ("user"%string, prompt)];
     temperature := "0";
     max_tokens := None |}.

Definition ask_openai (env : Env) (prompt : str) : M (option str) :=
  response <- service_call env (request_of prompt) ;;
  lift (py_index (choices response) 0).

(** The section "Run a Custom SQL Query". *)
Definition custom_query (env : Env) (user_query : str) (clicked : bool)
  : M unit :=
  if clicked then
    if negb (PyStr.eqb (strip user_query) []) then
      df_custom <- query_db env (Some user_query) ;;
      emit (st_dataframe df_custom)
    else ret tt
  else ret tt.

(** The section "Ask a Question (OpenAI)". *)
Definition ask_ai (env : Env) (user_prompt : str) (clicked : bool) : M unit :=
  if clicked then
    if negb (PyStr.eqb (strip user_prompt) []) then
      ai_sql <- ask_openai env
                  (of_string "Generate a valid SQLite query for this database: "
                   ++ user_prompt) ;;
      emit (st_code (fmt_opt ai_sql)) ;;
      df_ai <- query_db env ai_sql ;;
      emit (st_dataframe df_ai)
    else ret tt
  else ret tt.

(** The place of a column in the list of the column names. *)
Fixpoint index_of (name : str) (cols : list str) : option nat :=
  match cols with
  | [] => None
  | c :: cols' =>
      if PyStr.eqb c name then Some 0
      else match index_of name cols' with
           | Some i => Some (S i)
           | None => None
           end
  end.

(** [df[name].tolist()]; a name that is no column is a [KeyError]. *)
Definition column (df : DataFrame) (name : str) : result (list str) :=
  match index_of name (df_columns df) with
  | Some i => Ok (map (fun row => nth i row []) (df_rows df))
  | None => Raise (PyExc "KeyError" (of_string "'" ++ name ++ of_string "'"))
  end.

Fixpoint drop_nth {A} (i : nat) (l : list A) : list A :=
  match l, i with
  | [], _ => []
  | _ :: l', O => l'
  | x :: l', S j => x :: drop_nth j l'
  end.

(** [df.set_index(key)]: the values of the column, which become the
    index, and the frame without it. *)
Definition set_index (df : DataFrame) (key : str)
  : result (list str * DataFrame) :=
  match index_of key (df_columns df) with
  | Some i =>
      Ok (map (fun row => nth i row []) (df_rows df),
          {| df_columns := drop_nth i (df_columns df);
             df_rows := map (drop_nth i) (df_rows df) |})
  | None =>
      Raise (PyExc "KeyError"
               ([34%N] ++ of_string "None of ['" ++ key
                ++ of_string "'] are in the columns" ++ [34%N]))
  end.

Definition tables_query : str :=
  of_string "SELECT name FROM sqlite_master WHERE type='table';".

Definition patients_query : str :=
  of_string "SELECT * FROM patients LIMIT 10;".

Definition lab_counts_query : str := of_string "
SELECT PatientID, COUNT(LabName) AS LabCount
FROM stage_labs
GROUP BY PatientID
ORDER BY LabCount DESC
LIMIT 10;
".

(** What the widgets of the page return in one run of the script. *)
Record Page := {
  selectbox : list str -> option str;   (* "Select a table to view" *)
  user_query : str;                     (* "Enter SQL query here" *)
  run_clicked : bool;                   (* "Run Query" *)
  user_prompt : str;                    (* "Enter your question ..." *)
  ask_clicked : bool                    (* "Ask AI" *)
}.

(** One run of the script.  The titles, the table of the sidebar and
    the bar chart are left out as displays; the frame of the chart is
    still computed, as [set_index] can raise. *)
Definition script (env : Env) (pg : Page) : M unit :=
  emit ev_connect ;;
  lift (sqlite3_connect env) ;;
  emit (ev_read_sql tables_query) ;;
  tables <- lift (read_sql_query env tables_query) ;;
  emit ev_close ;;
  names <- lift (column tables (of_string "name")) ;;
  let table_selected := selectbox pg names in
  (if truthy_opt table_selected then
     df <- query_db env
             (Some (of_string "SELECT * FROM " ++ fmt_opt table_selected
                    ++ of_string " LIMIT 10;")) ;;
     emit (st_dataframe df)
   else ret tt) ;;
  df_patients <- query_db env (Some patients_query) ;;
  emit (st_dataframe df_patients) ;;
  df_lab_counts <- query_db env (Some lab_counts_query) ;;
  emit (st_dataframe df_lab_counts) ;;
  lift (set_index df_lab_counts (of_string "PatientID")) ;;
  custom_query env (user_query pg) (run_clicked pg) ;;
  ask_ai env (user_prompt pg) (ask_clicked pg).

End App.

(** ** Observations on a run *)

Definition is_chat (e : event) : bool :=
  match e with ev_chat _ _ => true | _ => false end.

(** The calls of the language model in a log. *)
Definition chat_calls (l : list event) : list event := filter is_chat l.

Definition is_error (e : event) : bool :=
  match e with st_error _ => true | _ => false end.

(** The error messages shown in a log. *)
Definition errors (l : list event) : list event := filter is_error l.

(** The history of a session state, empty before it is initialised. *)
Definition history_of (s : SessionState) : list HistoryEntry :=
  match query_history s with Some h => h | None => [] end.

(** A run of [main] from a session state, with an empty log. *)
Definition run_main (env : Env) (ui : LlmApp.Widgets) (s : SessionState)
  : result unit * World :=
  LlmApp.main env ui {| session := s; log := [] |}.

(** The session state after a sequence of runs. *)
Fixpoint run_all (steps : list (Env * LlmApp.Widgets)) (s : SessionState)
  : SessionState :=
  match steps with
  | [] => s
  | (env, ui) :: rest => run_all rest (session (snd (run_main env ui s)))
  end.

(** ** The words of the specification about fenced blocks *)

Module Spec.

(** [s] begins with [p]; what follows. *)
Fixpoint after_prefix (same : char -> char -> bool) (p s : str)
  : option str :=
  match p, s with
  | [], _ => Some s
  | a :: p', c :: s' => if same a c then after_prefix same p' s' else None
  | _ :: _, [] => None
  end.

(** The text before the first fence of [s] and the text after it. *)
Fixpoint until_fence (s : str) : option (str * str) :=
  match after_prefix N.eqb LlmApp.fence s with
  | Some r => Some ([], r)
  | None =>
      match s with
      | c :: s' =>
          match until_fence s' with
          | Some (b, r) => Some (c :: b, r)
          | None => None
          end
      | [] => None
      end
  end.

(** A fenced block begins at the head of [s]: its content. *)
Definition block_here (s : str) : option str :=
  match after_prefix N.eqb LlmApp.fence s with
  | Some u => option_map fst (until_fence u)
  | None => None
  end.

(** The content of the first block that [here] finds in [s]. *)
Fixpoint first_block (here : str -> option str) (s : str) : option str :=
  match here s with
  | Some b => Some b
  | None =>
      match s with
      | _ :: s' => first_block here s'
      | [] => None
      end
  end.

Definition first_generic_block : str -> option str := first_block block_here.

(** A block fenced and tagged [sql], read as a fenced block is
    written: the opening fence begins a line and carries the tag,
    which is the first word after it; the lines that follow are the
    content, up to a line that holds a fence and nothing else. *)

(** The lines of a text. *)
Fixpoint lines (s : str) : list str :=
  match s with
  | [] => [[]]
  | c :: s' =>
      if (c =? 10)%N then [] :: lines s'
      else match lines s' with
           | l :: ls => (c :: l) :: ls
           | [] => [[c]]
           end
  end.

(** The lines put together again. *)
Fixpoint unlines (ls : list str) : str :=
  match ls with
  | [] => []
  | [l] => l
  | l :: ls' => l ++ 10%N :: unlines ls'
  end.

(** A line that begins with a fence: what follows the fence. *)
Definition fence_info (l : str) : option str :=
  after_prefix N.eqb LlmApp.fence (lstrip l).

(** The first word of a text. *)
Fixpoint word (s : str) : str :=
  match s with
  | c :: s' => if isspace c then [] else c :: word s'
  | [] => []
  end.

(** An upper-case letter of the alphabet made lower-case. *)
Definition fold_case (c : char) : char :=
  (if (65 <=? c) && (c <=? 90) then c + 32 else c)%N.

(** The tag of an opening fence is [sql], in any letter case. *)
Definition tag_is_sql (info : str) : bool :=
  PyStr.eqb (map fold_case (word (lstrip info))) (of_string "sql").

(** A line that closes a block: a fence and nothing else. *)
Definition closes (l : str) : bool :=
  match fence_info l with
  | Some info => PyStr.eqb (strip info) []
  | None => false
  end.

(** Where the reading of the lines stands: outside every block, or
    inside one, tagged [sql] or not, with the lines read so far, the
    last one first. *)
Inductive place : Type :=
| Outside
| Inside (tagged : bool) (seen : list str).

Fixpoint read_blocks (p : place) (ls : list str) : option str :=
  match ls with
  | [] => None
  | l :: ls' =>
      match p with
      | Outside =>
          match fence_info l with
          | Some info => read_blocks (Inside (tag_is_sql info) []) ls'
          | None => read_blocks Outside ls'
          end
      | Inside tagged seen =>
          if closes l
          then if tagged then Some (unlines (rev seen))
               else read_blocks Outside ls'
          else read_blocks (Inside tagged (l :: seen)) ls'
      end
  end.

(** The content of the first block tagged [sql]. *)
Definition first_sql_block (s : str) : option str :=
  read_blocks Outside (lines s).

(** [extract] as the specification words it. *)
Definition extract (rawText : str) : str :=
  match first_sql_block rawText with
  | Some b => strip b
  | None =>
      match first_generic_block rawText with
      | Some b => strip b
      | None => strip rawText
      end
  end.

End Spec.

(** ** Auxiliary definitions *)

(** Letters compared as [re.IGNORECASE] compares them. *)
Definition same_letter : char -> char -> bool :=
  Re.char_match (Re.Flags true true).

(** What [sql_pattern] can take at the head of [s]: a fence, the
    letters [sql] right after it, and then whatever comes before the
    next fence, wherever that fence is. *)
Definition sql_opening_here (s : str) : option str :=
  match Spec.after_prefix same_letter
          (LlmApp.fence ++ of_string "sql") s with
  | Some u => option_map fst (Spec.until_fence u)
  | None => None
  end.

(** The first place of [s] where [sql_pattern] can match, with the
    text it takes there. *)
Definition first_sql_opening : str -> option str :=
  Spec.first_block sql_opening_here.

(** What the two patterns share: white space, the group, white space
    and the closing fence. *)
Definition block_tail : Re.regex :=
  Re.cat [Re.Star true Re.ASpace; Re.Group (Re.Star false Re.ADot);
          Re.Star true Re.ASpace; Re.lit LlmApp.fence].

(** The flags of the two calls of [findall]. *)
Definition sql_flags : Re.flags := Re.Flags true true.
Definition code_flags : Re.flags := Re.Flags true false.

(** The first capture of [findall]: the group of the first place of
    [s] where the pattern matches. *)
Fixpoint first_match (fl : Re.flags) (r : Re.regex) (s : str) : option str :=
  match Re.match_at fl r s false with
  | Some (_, g) => Some (Re.group_text g)
  | None =>
      match s with
      | _ :: s' => first_match fl r s'
      | [] => None
      end
  end.

(** What follows the last fence of [s]. *)
Fixpoint after_last_fence (s : str) : option str :=
  match s with
  | [] => None
  | c :: s' =>
      match after_last_fence s' with
      | Some r => Some r
      | None => Spec.after_prefix N.eqb LlmApp.fence s
      end
  end.

(** The parts of [main]: the initialisation is followed by the block
    under "Generate SQL" and by the block under "Display & edit SQL". *)
Definition generate_phase (env : Env) (ui : LlmApp.Widgets) : M str :=
  let user_question := LlmApp.question_area ui in
  let generate_button := LlmApp.generate_clicked ui in
  if generate_button && truthy user_question then
    let user_question := strip user_question in
    cq <- read_key "current_question" current_question ;;
    (if opt_neq cq (Some user_question) then
       set_generated_sql None ;;
       set_current_question None
     else ret tt) ;;
    out <- LlmApp.generate_sql_with_gpt env user_question ;;
    let sql_query := fst out in
    (if truthy_opt sql_query then
       set_generated_sql sql_query ;;
       set_current_question (Some user_question)
     else ret tt) ;;
    ret user_question
  else ret user_question.

Definition run_phase (env : Env) (ui : LlmApp.Widgets) (user_question : str)
  : M unit :=
  gs <- read_key "generated_sql" generated_sql ;;
  if truthy_opt gs then
    cq <- read_key "current_question" current_question ;;
    emit (st_info (of_string "**Question:** " ++ fmt_opt cq)) ;;
    let edited_sql := LlmApp.sql_editor ui (fmt_opt gs) in
    let run_button := LlmApp.run_clicked ui in
    if run_button && truthy (strip edited_sql) then
      df <- LlmApp.run_query env edited_sql ;;
      match df with
      | Some df =>
          h <- read_key "query_history" query_history ;;
          set_query_history
            (h ++ [{| question := user_question;
                      sql := edited_sql;
                      rows := df_len df |}]) ;;
          emit (st_success ([9989%N] ++ of_string " Query returned "
                            ++ str_of_nat (df_len df) ++ of_string " rows")) ;;
          emit (st_dataframe df)
      | None => ret tt
      end
    else ret tt
  else ret tt.

(** The session state once its three keys are assigned. *)
Definition initialised (s : SessionState) : SessionState :=
  {| generated_sql :=
       Some (match generated_sql s with Some v => v | None => None end);
     current_question :=
       Some (match current_question s with Some v => v | None => None end);
     query_history := Some (history_of s) |}.

(** The session state after the test of "Generate SQL" on the recorded
    question: both keys are reset when the question [q] is not the
    recorded one. *)
Definition invalidated (q : str) (s : SessionState) : SessionState :=
  match current_question s with
  | Some cq =>
      if opt_neq cq (Some q)
      then {| generated_sql := Some None;
              current_question := Some None;
              query_history := query_history s |}
      else s
  | None => s
  end.

(** ** Further observations *)

Definition is_read (e : event) : bool :=
  match e with ev_read_sql _ => true | _ => false end.

(** The statements sent to the database in a log. *)
Definition reads (l : list event) : list event := filter is_read l.

Definition is_connect (e : event) : bool :=
  match e with ev_connect => true | _ => false end.

Definition is_close (e : event) : bool :=
  match e with ev_close => true | _ => false end.

(** The connections opened and closed in a log. *)
Definition opened (l : list event) : nat := length (filter is_connect l).
Definition closed (l : list event) : nat := length (filter is_close l).

Definition is_frame (e : event) : bool :=
  match e with st_dataframe _ => true | _ => false end.

(** The tables shown in a log. *)
Definition frames (l : list event) : list event := filter is_frame l.

(** The generated SQL and the recorded question go together: both are
    unset, or the SQL is a trimmed text that is not empty and the
    question a trimmed text. *)
Definition paired (s : SessionState) : Prop :=
  ((generated_sql s = None \/ generated_sql s = Some None)
   /\ (current_question s = None \/ current_question s = Some None))
  \/ exists g q,
       generated_sql s = Some (Some g)
       /\ current_question s = Some (Some q)
       /\ truthy g = true /\ strip g = g /\ strip q = q.

(** A run of the script of [app.py] from an empty log. *)
Definition run_script (env : Env) (pg : App.Page) : result unit * World :=
  App.script env pg {| session := fresh_session; log := [] |}.

(** ** Sample worlds and clicks *)

Definition sample_frame : DataFrame :=
  {| df_columns := [of_string "patient_id"];
     df_rows := [[of_string "p1"]; [of_string "p2"]] |}.

Definition fenced_answer : str :=
  of_string ("```sql" ++ nl ++ "SELECT 1" ++ nl ++ "```")%string.

(** Both services answer. *)
Definition env_ok : Env :=
  {| sqlite3_connect := Ok tt;
     read_sql_query := fun _ => Ok sample_frame;
     new_client := Ok tt;
     chat_completions_create :=
       fun _ => Ok {| choices := [Some fenced_answer] |} |}.

(** The language model cannot be reached. *)
Definition env_llm_down : Env :=
  {| sqlite3_connect := Ok tt;
     read_sql_query := fun _ => Ok sample_frame;
     new_client := Ok tt;
     chat_completions_create :=
       fun _ => Raise (PyExc "APIConnectionError"
                         (of_string "Connection error.")) |}.

(** The database refuses every statement. *)
Definition env_sql_error : Env :=
  {| sqlite3_connect := Ok tt;
     read_sql_query :=
       fun _ => Raise (PyExc "DatabaseError"
                         (of_string "near 'SELEKT': syntax error"));
     new_client := Ok tt;
     chat_completions_create :=
       fun _ => Ok {| choices := [Some fenced_answer] |} |}.

(** The database file cannot be opened. *)
Definition env_no_database : Env :=
  {| sqlite3_connect :=
       Raise (PyExc "OperationalError"
                (of_string "unable to open database file"));
     read_sql_query := fun _ => Ok sample_frame;
     new_client := Ok tt;
     chat_completions_create :=
       fun _ => Ok {| choices := [Some fenced_answer] |} |}.

(** There is no key to make the client with. *)
Definition env_no_key : Env :=
  {| sqlite3_connect := Ok tt;
     read_sql_query := fun _ => Ok sample_frame;
     new_client :=
       Raise (PyExc "OpenAIError"
                (of_string "The api_key client option must be set"));
     chat_completions_create :=
       fun _ => Ok {| choices := [Some fenced_answer] |} |}.

(** The model answers with a fenced block that has no tag. *)
Definition env_generic_answer : Env :=
  {| sqlite3_connect := Ok tt;
     read_sql_query := fun _ => Ok sample_frame;
     new_client := Ok tt;
     chat_completions_create :=
       fun _ => Ok {| choices :=
                        [Some (of_string ("```" ++ nl ++ "SELECT 1" ++ nl
                                          ++ "```")%string)] |} |}.

(** The model answers with no choice at all. *)
Definition env_no_choices : Env :=
  {| sqlite3_connect := Ok tt;
     read_sql_query := fun _ => Ok sample_frame;
     new_client := Ok tt;
     chat_completions_create := fun _ => Ok {| choices := [] |} |}.

Definition tables_frame : DataFrame :=
  {| df_columns := [of_string "name"];
     df_rows := [[of_string "patients"]] |}.

(** A database without the table of the laboratory counts. *)
Definition env_labs_missing : Env :=
  {| sqlite3_connect := Ok tt;
     read_sql_query :=
       fun q =>
         if PyStr.eqb q App.lab_counts_query
         then Raise (PyExc "DatabaseError"
                       (of_string "no such table: stage_labs"))
         else Ok tables_frame;
     new_client := Ok tt;
     chat_completions_create :=
       fun _ => Ok {| choices := [Some fenced_answer] |} |}.

(** A database that cannot list its tables. *)
Definition env_listing_fails : Env :=
  {| sqlite3_connect := Ok tt;
     read_sql_query :=
       fun _ => Raise (PyExc "DatabaseError"
                         (of_string "file is not a database"));
     new_client := Ok tt;
     chat_completions_create :=
       fun _ => Ok {| choices := [Some fenced_answer] |} |}.

(** A database that answers every statement with a table that has
    the columns the script of [app.py] looks for. *)
Definition wide_frame : DataFrame :=
  {| df_columns := [of_string "name"; of_string "PatientID"];
     df_rows := [[of_string "patients"; of_string "p1"]] |}.

Definition env_app_ok : Env :=
  {| sqlite3_connect := Ok tt;
     read_sql_query := fun _ => Ok wide_frame;
     new_client := Ok tt;
     chat_completions_create :=
       fun _ => Ok {| choices := [Some fenced_answer] |} |}.

(** A page of [app.py] on which "Ask AI" is clicked with a question,
    and the first table is selected. *)
Definition page_ask (prompt : str) : App.Page :=
  {| App.selectbox := fun names => hd_error names;
     App.user_query := [];
     App.run_clicked := false;
     App.user_prompt := prompt;
     App.ask_clicked := true |}.

(** A click on "Generate SQL" with [q] in the question area. *)
Definition click_generate (q : str) : LlmApp.Widgets :=
  {| LlmApp.question_area := q;
     LlmApp.generate_clicked := true;
     LlmApp.clear_clicked := false;
     LlmApp.sql_editor := fun v => v;
     LlmApp.run_clicked := false |}.

(** A click on "Run Query" with [q] in the question area and an
    editor that behaves as [ed]. *)
Definition click_run (q : str) (ed : str -> str) : LlmApp.Widgets :=
  {| LlmApp.question_area := q;
     LlmApp.generate_clicked := false;
     LlmApp.clear_clicked := false;
     LlmApp.sql_editor := ed;
     LlmApp.run_clicked := true |}.

(** A click on "Clear History". *)
Definition click_clear (q : str) (ed : str -> str) : LlmApp.Widgets :=
  {| LlmApp.question_area := q;
     LlmApp.generate_clicked := false;
     LlmApp.clear_clicked := true;
     LlmApp.sql_editor := ed;
     LlmApp.run_clicked := false |}.

(** * Properties *)

Unset Implicit Arguments.

(** ** Strings *)

Lemma isspace_backtick : isspace LlmApp.backtick = false.
Proof. reflexivity. Qed.

Lemma eqb_backtick_not_space c :
  N.eqb LlmApp.backtick c = true -> isspace c = false.
Proof. intros H; apply N.eqb_eq in H; subst c; reflexivity. Qed.

Lemma str_eqb_eq a b : PyStr.eqb a b = true <-> a = b.
Proof.
  unfold PyStr.eqb; destruct (list_eq_dec N.eq_dec a b); split;
    congruence.
Qed.

Lemma rstrip_prefix b : exists w, b = rstrip b ++ w.
Proof.
  induction b as [|c b [w IH]]; simpl.
  - exists []; reflexivity.
  - destruct (rstrip b) as [|x t] eqn:E.
    + destruct (isspace c).
      * exists (c :: b); reflexivity.
      * exists w. simpl in *. now rewrite <- IH.
    + exists w. simpl in *. now rewrite <- IH.
Qed.

Lemma rstrip_cons_nonspace c b :
  isspace c = false -> rstrip (c :: b) = c :: rstrip b.
Proof. intros H; simpl; rewrite H; destruct (rstrip b); reflexivity. Qed.

Lemma rstrip_cons_nonempty c b :
  rstrip b <> [] -> rstrip (c :: b) = c :: rstrip b.
Proof. intros H; simpl; destruct (rstrip b); [contradiction|reflexivity]. Qed.

Lemma rstrip_cons_space c b :
  isspace c = true -> rstrip b = [] -> rstrip (c :: b) = [].
Proof. intros H E; simpl; rewrite E, H; reflexivity. Qed.

Lemma rstrip_idem b : rstrip (rstrip b) = rstrip b.
Proof.
  induction b as [|c b IH]; simpl; [reflexivity|].
  destruct (rstrip b) as [|x t] eqn:E.
  - destruct (isspace c) eqn:Hc; simpl; [reflexivity|now rewrite Hc].
  - change (rstrip (c :: x :: t) = c :: x :: t).
    rewrite rstrip_cons_nonempty; rewrite IH; [reflexivity|discriminate].
Qed.

Lemma lstrip_idem s : lstrip (lstrip s) = lstrip s.
Proof.
  induction s as [|c s IH]; simpl; [reflexivity|].
  destruct (isspace c) eqn:Hc; [exact IH|simpl; now rewrite Hc].
Qed.

Lemma lstrip_rstrip_head s : lstrip (rstrip (lstrip s)) = rstrip (lstrip s).
Proof.
  induction s as [|c s IH]; simpl; [reflexivity|].
  destruct (isspace c) eqn:Hc; [exact IH|].
  rewrite rstrip_cons_nonspace by assumption. simpl. now rewrite Hc.
Qed.

(** Trimming twice is trimming once. *)
Lemma strip_idem s : strip (strip s) = strip s.
Proof. unfold strip. rewrite lstrip_rstrip_head. apply rstrip_idem. Qed.

(** ** The matcher *)

Ltac split_N_tests :=
  repeat match goal with
         | |- context [N.leb ?a ?b] => destruct (N.leb_spec a b)
         | |- context [N.eqb ?a ?b] => destruct (N.eqb_spec a b)
         | H : context [N.leb ?a ?b] |- _ => destruct (N.leb_spec a b)
         | H : context [N.eqb ?a ?b] |- _ => destruct (N.eqb_spec a b)
         end; simpl in *.

Section MatcherFacts.
Variable fl : Re.flags.
Variable R : Type.

Lemma star_max_ext a s (k k' : str -> option R) :
  (forall x, k x = k' x) -> Re.star_max fl a s k = Re.star_max fl a s k'.
Proof.
  intros E; induction s as [|c s IH]; simpl; [apply E|].
  rewrite IH, E; reflexivity.
Qed.

Lemma star_min_ext a s (k k' : str -> option R) :
  (forall x, k x = k' x) -> Re.star_min fl a s k = Re.star_min fl a s k'.
Proof.
  intros E; induction s as [|c s IH]; simpl; rewrite E; [reflexivity|].
  rewrite IH; reflexivity.
Qed.

Lemma run_ext r :
  forall s g (k k' : str -> option str -> option R),
    (forall x y, k x y = k' x y) ->
    Re.run fl r s g k = Re.run fl r s g k'.
Proof.
  induction r as [|a|r1 IH1 r2 IH2|[|] a|r IH|r IH]; intros s g k k' E; simpl.
  - apply E.
  - destruct s as [|c s]; [reflexivity|]. now rewrite E.
  - apply IH1; intros; apply IH2; assumption.
  - apply star_max_ext; intros; apply E.
  - apply star_min_ext; intros; apply E.
  - rewrite (IH s g k k' E), E; reflexivity.
  - apply IH; intros; apply E.
Qed.

Lemma char_match_backtick c :
  Re.char_match fl LlmApp.backtick c = N.eqb LlmApp.backtick c.
Proof.
  unfold Re.char_match. destruct (Re.IGNORECASE fl).
  - change (Re.lower LlmApp.backtick) with 96%N.
    change (Re.fixes 96%N) with (@nil char).
    unfold Re.lower, LlmApp.backtick; simpl existsb.
    split_N_tests; try reflexivity; lia.
  - apply N.eqb_sym.
Qed.

Lemma after_prefix_fence s :
  Spec.after_prefix (Re.char_match fl) LlmApp.fence s
  = Spec.after_prefix N.eqb LlmApp.fence s.
Proof.
  unfold LlmApp.fence.
  destruct s as [|a [|b [|c s]]]; simpl;
    rewrite ?char_match_backtick; reflexivity.
Qed.

Lemma after_prefix_app same p q s :
  Spec.after_prefix same (p ++ q) s
  = match Spec.after_prefix same p s with
    | Some r => Spec.after_prefix same q r
    | None => None
    end.
Proof.
  revert s; induction p as [|a p IH]; intros s; simpl.
  - reflexivity.
  - destruct s as [|c s]; [destruct (p ++ q); reflexivity|].
    destruct (same a c); [apply IH|reflexivity].
Qed.

(** A literal string is matched character by character. *)
Lemma run_lit p :
  forall s g (k : str -> option str -> option R),
    Re.run fl (Re.lit p) s g k
    = match Spec.after_prefix (Re.char_match fl) p s with
      | Some r => k r g
      | None => None
      end.
Proof.
  induction p as [|a p IH]; intros s g k.
  - reflexivity.
  - change (Re.lit (a :: p)) with (Re.Seq (Re.Atom (Re.AChar a)) (Re.lit p)).
    simpl. destruct s as [|c s]; [reflexivity|].
    destruct (Re.char_match fl a c); [apply IH|reflexivity].
Qed.

Lemma run_fence s g (k : str -> option str -> option R) :
  Re.run fl (Re.lit LlmApp.fence) s g k
  = match Spec.after_prefix N.eqb LlmApp.fence s with
    | Some r => k r g
    | None => None
    end.
Proof. rewrite run_lit, after_prefix_fence; reflexivity. Qed.

End MatcherFacts.

(** ** Fences *)

Arguments Spec.until_fence : simpl never.
Arguments Spec.after_prefix : simpl never.

Lemma until_fence_cons c s :
  Spec.until_fence (c :: s)
  = match Spec.after_prefix N.eqb LlmApp.fence (c :: s) with
    | Some r => Some ([], r)
    | None =>
        match Spec.until_fence s with
        | Some (b, r) => Some (c :: b, r)
        | None => None
        end
    end.
Proof. reflexivity. Qed.

Lemma fence_head_not_space c s r :
  Spec.after_prefix N.eqb LlmApp.fence (c :: s) = Some r -> isspace c = false.
Proof.
  unfold Spec.after_prefix, LlmApp.fence.
  destruct (N.eqb LlmApp.backtick c) eqn:E; [intros _|discriminate].
  now apply eqb_backtick_not_space.
Qed.

Lemma no_fence_at_space c s :
  isspace c = true -> Spec.after_prefix N.eqb LlmApp.fence (c :: s) = None.
Proof.
  intros Hc.
  destruct (Spec.after_prefix N.eqb LlmApp.fence (c :: s)) eqn:E; [|reflexivity].
  apply fence_head_not_space in E; congruence.
Qed.

(** The text before the first fence, the fence and the rest make up
    the string. *)
Lemma until_fence_split s b r :
  Spec.until_fence s = Some (b, r) -> s = b ++ LlmApp.fence ++ r.
Proof.
  revert b r; induction s as [|c s IH]; intros b r; [discriminate|].
  rewrite until_fence_cons.
  destruct (Spec.after_prefix N.eqb LlmApp.fence (c :: s)) as [r'|] eqn:E.
  - intros [= <- <-]. revert E. unfold Spec.after_prefix, LlmApp.fence.
    destruct (N.eqb_spec LlmApp.backtick c); [subst c|discriminate].
    destruct s as [|c2 s]; [discriminate|].
    destruct (N.eqb_spec LlmApp.backtick c2); [subst c2|discriminate].
    destruct s as [|c3 s]; [discriminate|].
    destruct (N.eqb_spec LlmApp.backtick c3); [subst c3|discriminate].
    intros [= <-]; reflexivity.
  - destruct (Spec.until_fence s) as [[b' r']|]; [|discriminate].
    intros [= <- <-]. simpl. f_equal. now apply IH.
Qed.

(** A fence follows the leading white space of [t] exactly when the
    text before the first fence of [t] is white. *)
Lemma fence_after_spaces t r :
  Spec.after_prefix N.eqb LlmApp.fence (lstrip t) = Some r
  <-> exists b, Spec.until_fence t = Some (b, r) /\ rstrip b = [].
Proof.
  induction t as [|c t IH].
  - split; [discriminate|intros (b & H & _); discriminate].
  - rewrite until_fence_cons. simpl lstrip.
    destruct (isspace c) eqn:Hc.
    + rewrite (no_fence_at_space _ _ Hc). rewrite IH. split.
      * intros (b & -> & Hb). exists (c :: b). split; [reflexivity|].
        now apply rstrip_cons_space.
      * destruct (Spec.until_fence t) as [[b' r']|];
          intros (b & [= <- <-] & Hb); exists b'. split; [reflexivity|].
        destruct (rstrip b') eqn:E; [reflexivity|].
        rewrite rstrip_cons_nonempty in Hb by (rewrite E; discriminate).
        discriminate.
    + destruct (Spec.after_prefix N.eqb LlmApp.fence (c :: t)) as [r'|].
      * split; [intros [= ->]; now exists []|].
        intros (b & [= <- <-] & _); reflexivity.
      * split; [discriminate|].
        destruct (Spec.until_fence t) as [[b' r']|];
          intros (b & [= <- <-] & Hb).
        rewrite rstrip_cons_nonspace in Hb by assumption. discriminate.
Qed.

Lemma until_fence_lstrip s :
  Spec.until_fence (lstrip s)
  = match Spec.until_fence s with
    | Some (b, r) => Some (lstrip b, r)
    | None => None
    end.
Proof.
  induction s as [|c s IH]; [reflexivity|].
  simpl lstrip. destruct (isspace c) eqn:Hc.
  - rewrite IH, until_fence_cons, (no_fence_at_space _ _ Hc).
    destruct (Spec.until_fence s) as [[b r]|]; [|reflexivity].
    simpl. now rewrite Hc.
  - rewrite until_fence_cons.
    destruct (Spec.after_prefix N.eqb LlmApp.fence (c :: s)); [reflexivity|].
    destruct (Spec.until_fence s) as [[b r]|]; [|reflexivity].
    simpl. now rewrite Hc.
Qed.

(** ** The shared tail of the two patterns *)

Section Tail.
Variable fl : Re.flags.
Hypothesis dotall : Re.DOTALL fl = true.

Let Res : Type := (str * option str)%type.

(** White space and the closing fence: the greedy run gives nothing
    back, a fence does not begin with white space. *)
Lemma close_spec (K : str -> option Res) s :
  Re.star_max fl Re.ASpace s
    (fun s3 => match Spec.after_prefix N.eqb LlmApp.fence s3 with
               | Some r => K r
               | None => None
               end)
  = match Spec.after_prefix N.eqb LlmApp.fence (lstrip s) with
    | Some r => K r
    | None => None
    end.
Proof.
  induction s as [|c s IH]; [reflexivity|].
  simpl. destruct (isspace c) eqn:Hc; [|reflexivity].
  rewrite IH, (no_fence_at_space _ _ Hc).
  destruct (Spec.after_prefix N.eqb LlmApp.fence (lstrip s)) as [r|];
    [destruct (K r)|]; reflexivity.
Qed.

(** The lazy run stops at the first place from which white space and
    a fence follow. *)
Lemma lazy_spec (C : str -> str) t :
  Re.star_min fl Re.ADot t
    (fun s2 => match Spec.after_prefix N.eqb LlmApp.fence (lstrip s2) with
               | Some r => Some (r, Some (C s2))
               | None => None
               end)
  = match Spec.until_fence t with
    | Some (b, r) => Some (r, Some (C (skipn (length (rstrip b)) t)))
    | None => None
    end.
Proof.
  induction t as [|c t IH]; [reflexivity|].
  cbn [Re.star_min Re.atom_match]. rewrite dotall, IH. cbn [orb].
  rewrite until_fence_cons.
  destruct (Spec.after_prefix N.eqb LlmApp.fence (lstrip (c :: t)))
    as [r|] eqn:E.
  - apply fence_after_spaces in E. destruct E as (b & E & Hb).
    rewrite until_fence_cons in E.
    destruct (Spec.after_prefix N.eqb LlmApp.fence (c :: t)) as [r'|].
    + injection E as <- <-. reflexivity.
    + destruct (Spec.until_fence t) as [[b' r']|]; [|discriminate].
      injection E as <- <-. rewrite Hb. reflexivity.
  - destruct (Spec.after_prefix N.eqb LlmApp.fence (c :: t)) as [r'|] eqn:F.
    + exfalso. assert (H : Spec.after_prefix N.eqb LlmApp.fence
                             (lstrip (c :: t)) = Some r').
      { simpl. now rewrite (fence_head_not_space _ _ _ F). }
      congruence.
    + destruct (Spec.until_fence t) as [[b r]|] eqn:U; [|reflexivity].
      destruct (rstrip b) as [|x w] eqn:Hb.
      * destruct (isspace c) eqn:Hc.
        -- exfalso.
           assert (H : Spec.after_prefix N.eqb LlmApp.fence (lstrip t)
                       = Some r)
             by (apply fence_after_spaces; now exists b).
           simpl in E. rewrite Hc in E. congruence.
        -- rewrite rstrip_cons_nonspace by assumption.
           rewrite Hb. reflexivity.
      * rewrite rstrip_cons_nonempty by (rewrite Hb; discriminate).
        rewrite Hb. reflexivity.
Qed.

(** The group holds the text before the fence without the white
    space at its end. *)
Lemma capture_text s b r :
  Spec.until_fence s = Some (b, r) ->
  firstn (length s - length (skipn (length (rstrip b)) s)) s = rstrip b.
Proof.
  intros U. apply until_fence_split in U.
  destruct (rstrip_prefix b) as [w Hw].
  assert (Hs : s = rstrip b ++ (w ++ LlmApp.fence ++ r)).
  { rewrite U. rewrite Hw at 1. now rewrite <- app_assoc. }
  clear U Hw. revert Hs. generalize (rstrip b) as p. intros p ->.
  rewrite length_skipn, length_app.
  replace (length p + length (w ++ LlmApp.fence ++ r)
           - (length p + length (w ++ LlmApp.fence ++ r) - length p))
    with (length p + 0) by lia.
  rewrite firstn_app_2. simpl. apply app_nil_r.
Qed.

Lemma capture_lazy s1 :
  Re.star_min fl Re.ADot s1
    (fun s2 =>
       match Spec.after_prefix N.eqb LlmApp.fence (lstrip s2) with
       | Some r => Some (r, Some (firstn (length s1 - length s2) s1))
       | None => None
       end)
  = match Spec.until_fence s1 with
    | Some (b, r) => Some (r, Some (rstrip b))
    | None => None
    end.
Proof.
  rewrite (lazy_spec (fun s2 => firstn (length s1 - length s2) s1)).
  destruct (Spec.until_fence s1) as [[b r]|] eqn:U; [|reflexivity].
  now rewrite (capture_text _ _ _ U).
Qed.

(** The greedy run of white space in front of the group. *)
Lemma lead_spec s :
  Re.star_max fl Re.ASpace s
    (fun s1 => match Spec.until_fence s1 with
               | Some (b, r) => Some (r, Some (rstrip b))
               | None => None
               end)
  = match Spec.until_fence s with
    | Some (b, r) => Some (r, Some (strip b))
    | None => None
    end.
Proof.
  induction s as [|c s IH]; [reflexivity|].
  cbn [Re.star_max Re.atom_match]. destruct (isspace c) eqn:Hc.
  - rewrite IH, until_fence_cons, (no_fence_at_space _ _ Hc).
    destruct (Spec.until_fence s) as [[b r]|]; [|reflexivity].
    unfold strip. simpl lstrip. now rewrite Hc.
  - rewrite until_fence_cons.
    destruct (Spec.after_prefix N.eqb LlmApp.fence (c :: s));
      [reflexivity|].
    destruct (Spec.until_fence s) as [[b r]|]; [|reflexivity].
    unfold strip. simpl lstrip. now rewrite Hc.
Qed.

(** The tail of the patterns finds the first fence and captures the
    trimmed text in front of it. *)
Lemma block_tail_spec s g :
  Re.run fl block_tail s g (fun s' g' => Some (s', g'))
  = match Spec.until_fence s with
    | Some (b, r) => Some (r, Some (strip b))
    | None => None
    end.
Proof.
  etransitivity; [|apply lead_spec]. unfold block_tail.
  cbn [Re.cat fold_right Re.run].
  apply star_max_ext; intros s1. cbv beta.
  etransitivity; [|apply capture_lazy].
  apply star_min_ext; intros s2. cbv beta.
  etransitivity;
    [|apply (close_spec
               (fun r => Some (r, Some (firstn (length s1 - length s2) s1))))].
  apply star_max_ext; intros s3. cbv beta.
  now rewrite run_fence.
Qed.
End Tail.

(** ** The two patterns *)

Lemma match_at_false fl r s :
  Re.match_at fl r s false = Re.run fl r s None (fun s' g => Some (s', g)).
Proof. reflexivity. Qed.

(** Where [sql_pattern] matches, and what it captures there. *)
Lemma sql_match_at s :
  Re.match_at sql_flags LlmApp.sql_pattern s false
  = match Spec.after_prefix same_letter
            (LlmApp.fence ++ of_string "sql") s with
    | Some u =>
        match Spec.until_fence u with
        | Some (b, r) => Some (r, Some (strip b))
        | None => None
        end
    | None => None
    end.
Proof.
  rewrite match_at_false.
  change LlmApp.sql_pattern
    with (Re.Seq (Re.lit LlmApp.fence)
                 (Re.Seq (Re.lit (of_string "sql")) block_tail)).
  cbn [Re.run]. rewrite run_lit, after_prefix_app.
  change (Re.char_match sql_flags) with same_letter.
  destruct (Spec.after_prefix same_letter LlmApp.fence s) as [u|];
    [|reflexivity].
  rewrite run_lit. change (Re.char_match sql_flags) with same_letter.
  destruct (Spec.after_prefix same_letter (of_string "sql") u) as [v|];
    [|reflexivity].
  now apply block_tail_spec.
Qed.

Lemma no_last_fence_no_fence u :
  after_last_fence u = None -> Spec.until_fence u = None.
Proof.
  induction u as [|c u IH]; [reflexivity|].
  simpl after_last_fence. rewrite until_fence_cons.
  destruct (after_last_fence u); [discriminate|].
  intros ->. now rewrite IH.
Qed.

(** The greedy run of [code_pattern] swallows everything up to the
    last fence, so that nothing is left for the group. *)
Lemma swallow_spec fl u :
  Re.DOTALL fl = true ->
  Re.star_max fl Re.ADot u
    (fun s1 => match Spec.until_fence s1 with
               | Some (b, r) => Some (r, Some (strip b))
               | None => None
               end)
  = match after_last_fence u with
    | Some r => Some (r, Some [])
    | None => None
    end.
Proof.
  intros dotall. induction u as [|c u IH]; [reflexivity|].
  cbn [Re.star_max Re.atom_match]. rewrite dotall, IH. cbn [orb].
  simpl after_last_fence.
  destruct (after_last_fence u) as [r|] eqn:L; [reflexivity|].
  rewrite until_fence_cons, (no_last_fence_no_fence _ L).
  destruct (Spec.after_prefix N.eqb LlmApp.fence (c :: u)); reflexivity.
Qed.

(** Where [code_pattern] matches, and what it captures there. *)
Lemma code_match_at s :
  Re.match_at code_flags LlmApp.code_pattern s false
  = match Spec.after_prefix N.eqb LlmApp.fence s with
    | Some u =>
        match after_last_fence u with
        | Some r => Some (r, Some [])
        | None => None
        end
    | None => None
    end.
Proof.
  rewrite match_at_false.
  change LlmApp.code_pattern
    with (Re.Seq (Re.lit LlmApp.fence)
                 (Re.Seq (Re.Opt (Re.Star true Re.ADot)) block_tail)).
  cbn [Re.run]. rewrite run_fence.
  destruct (Spec.after_prefix N.eqb LlmApp.fence s) as [u|]; [|reflexivity].
  rewrite (star_max_ext code_flags _ Re.ADot u _
             (fun s1 => match Spec.until_fence s1 with
                        | Some (b, r) => Some (r, Some (strip b))
                        | None => None
                        end))
    by (intros; now apply block_tail_spec).
  rewrite swallow_spec by reflexivity.
  destruct (after_last_fence u) as [r|] eqn:L; [reflexivity|].
  rewrite block_tail_spec by reflexivity.
  now rewrite (no_last_fence_no_fence _ L).
Qed.

(** ** [findall] and its first element *)

Lemma findall_head fl r s :
  hd_error (Re.findall r s fl) = first_match fl r s.
Proof.
  unfold Re.findall. induction s as [|c s IH].
  - simpl. destruct (Re.match_at fl r [] false) as [[rest g]|]; [|reflexivity].
    destruct (length (@nil char) - length rest); reflexivity.
  - cbn [Re.scan first_match].
    destruct (Re.match_at fl r (c :: s) false) as [[rest g]|]; [|exact IH].
    destruct (length (c :: s) - length rest); reflexivity.
Qed.

(** The extractor in terms of the first matches of its patterns. *)
Lemma extract_first_match s :
  LlmApp.extract_sql_from_response s
  = Ok match first_match sql_flags LlmApp.sql_pattern s with
       | Some m => strip m
       | None =>
           match first_match code_flags LlmApp.code_pattern s with
           | Some m => strip m
           | None => strip s
           end
       end.
Proof.
  unfold LlmApp.extract_sql_from_response.
  rewrite <- !findall_head. fold sql_flags code_flags.
  destruct (Re.findall LlmApp.sql_pattern s sql_flags) as [|m ms];
    [|reflexivity].
  destruct (Re.findall LlmApp.code_pattern s code_flags) as [|m ms];
    reflexivity.
Qed.

Lemma sql_first_match s :
  first_match sql_flags LlmApp.sql_pattern s
  = option_map strip (first_sql_opening s).
Proof.
  unfold first_sql_opening.
  induction s as [|c s IH];
    cbn [first_match Spec.first_block]; rewrite sql_match_at;
    unfold sql_opening_here;
    destruct (Spec.after_prefix same_letter _ _) as [u|];
    try destruct (Spec.until_fence u) as [[b r]|];
    try reflexivity; exact IH.
Qed.

Lemma code_first_match s m :
  first_match code_flags LlmApp.code_pattern s = Some m -> m = [].
Proof.
  induction s as [|c s IH]; cbn [first_match]; rewrite code_match_at;
    destruct (Spec.after_prefix N.eqb LlmApp.fence _) as [u|];
    try destruct (after_last_fence u);
    try discriminate; try (intros [= <-]; reflexivity); exact IH.
Qed.

Lemma generic_block_matched s b :
  Spec.first_generic_block s = Some b ->
  first_match code_flags LlmApp.code_pattern s <> None.
Proof.
  unfold Spec.first_generic_block.
  induction s as [|c s IH]; cbn [first_match Spec.first_block];
    rewrite code_match_at; unfold Spec.block_here;
    destruct (Spec.after_prefix N.eqb LlmApp.fence _) as [u|];
    try discriminate; try exact IH.
  all: destruct (after_last_fence u) eqn:L; [discriminate|].
  all: rewrite (no_last_fence_no_fence _ L); simpl; try discriminate.
  exact IH.
Qed.

(** ** The response extractor *)

(** C7.  For every input string the extractor returns a string: the
    index into the list of matches is guarded by the test that the
    list is not empty, so that no exception is raised. *)
Theorem extract_total :
  forall s : str, exists r : str, LlmApp.extract_sql_from_response s = Ok r.
Proof. intros s. rewrite extract_first_match. eexists. reflexivity. Qed.




(** Two more responses on which the extractor does not return the
    content of the block tagged [sql]: words after the tag on the
    opening line are returned with the content, and a fence inside
    the statement ends it. *)
Example words_after_tag_returned :
  let s := of_string ("```sql title=q1" ++ nl ++ "SELECT 3" ++ nl
                      ++ "```")%string in
  Spec.first_sql_block s = Some (of_string "SELECT 3")
  /\ LlmApp.extract_sql_from_response s
     = Ok (of_string ("title=q1" ++ nl ++ "SELECT 3")%string).
Proof. vm_compute. split; reflexivity. Qed.

Example fence_inside_statement_ends_it :
  let s := of_string ("```sql" ++ nl ++ "SELECT '```' AS fence;" ++ nl
                      ++ "```")%string in
  Spec.first_sql_block s = Some (of_string "SELECT '```' AS fence;")
  /\ LlmApp.extract_sql_from_response s = Ok (of_string "SELECT '").
Proof. vm_compute. split; reflexivity. Qed.

(** On the answer the prompt asks for, the two readings agree. *)
Example plain_answer_extracted :
  Spec.first_sql_block fenced_answer = Some (of_string "SELECT 1")
  /\ LlmApp.extract_sql_from_response fenced_answer
     = Ok (of_string "SELECT 1").
Proof. vm_compute. split; reflexivity. Qed.

(** Whenever only a generic fenced block is there, the extractor
    returns the empty string: the group of [code_pattern] is always
    empty. *)
Lemma extract_generic_is_empty s b :
  first_sql_opening s = None ->
  Spec.first_generic_block s = Some b ->
  LlmApp.extract_sql_from_response s = Ok [].
Proof.
  intros Hsql Hgen. rewrite extract_first_match, sql_first_match, Hsql.
  simpl. apply generic_block_matched in Hgen.
  destruct (first_match code_flags LlmApp.code_pattern s) as [m|] eqn:E;
    [|contradiction].
  now rewrite (code_first_match _ _ E).
Qed.

(** With no fence at all the extractor trims the whole input. *)
Lemma extract_no_fence s :
  Spec.until_fence s = None ->
  LlmApp.extract_sql_from_response s = Ok (strip s).
Proof.
  intros H. rewrite extract_first_match.
  assert (Hs : forall t, Spec.until_fence t = None ->
                         first_match sql_flags LlmApp.sql_pattern t = None
                         /\ first_match code_flags LlmApp.code_pattern t = None).
  { clear. induction t as [|c t IH]; intros H.
    - split; reflexivity.
    - rewrite until_fence_cons in H.
      destruct (Spec.after_prefix N.eqb LlmApp.fence (c :: t)) eqn:F;
        [discriminate|].
      destruct (Spec.until_fence t) as [[b r]|]; [discriminate|].
      destruct (IH eq_refl) as [IH1 IH2].
      cbn [first_match]. rewrite sql_match_at, code_match_at, F, IH2.
      rewrite after_prefix_app.
      replace (Spec.after_prefix same_letter LlmApp.fence (c :: t))
        with (@None str); [now split|].
      unfold same_letter.
      now rewrite (after_prefix_fence sql_flags). }
  destruct (Hs s H) as [-> ->]. reflexivity.
Qed.

Lemma no_fence_no_last_fence u :
  Spec.until_fence u = None -> after_last_fence u = None.
Proof.
  induction u as [|c u IH]; [reflexivity|].
  rewrite until_fence_cons. simpl after_last_fence.
  destruct (Spec.after_prefix N.eqb LlmApp.fence (c :: u)); [discriminate|].
  destruct (Spec.until_fence u) as [[b r]|]; [discriminate|].
  intros _. now rewrite IH.
Qed.

Lemma no_generic_block_no_match s :
  Spec.first_generic_block s = None ->
  first_match code_flags LlmApp.code_pattern s = None.
Proof.
  unfold Spec.first_generic_block.
  induction s as [|c s IH]; cbn [first_match Spec.first_block];
    rewrite code_match_at; unfold Spec.block_here;
    destruct (Spec.after_prefix N.eqb LlmApp.fence _) as [u|];
    try reflexivity; try exact IH.
  all: destruct (Spec.until_fence u) as [[b r]|] eqn:U;
    [discriminate|rewrite (no_fence_no_last_fence _ U)];
    simpl; try reflexivity; exact IH.
Qed.

(** The extractor, case by case. *)
Lemma extract_by_cases s :
  LlmApp.extract_sql_from_response s
  = Ok match first_sql_opening s with
       | Some b => strip b
       | None =>
           match Spec.first_generic_block s with
           | Some _ => []
           | None => strip s
           end
       end.
Proof.
  destruct (first_sql_opening s) as [b|] eqn:S1.
  - rewrite extract_first_match, sql_first_match, S1.
    simpl. now rewrite strip_idem.
  - destruct (Spec.first_generic_block s) as [b|] eqn:G.
    + now apply (extract_generic_is_empty s b).
    + rewrite extract_first_match, sql_first_match, S1. simpl.
      now rewrite (no_generic_block_no_match _ G).
Qed.

(** C1.  On a response whose only fenced block is generic the
    extractor returns the empty string and not the trimmed content of
    the block. *)
Theorem generic_block_lost :
  let s := of_string ("```" ++ nl ++ "SELECT 1" ++ nl ++ "```")%string in
  Spec.first_sql_block s = None
  /\ Spec.first_generic_block s
     = Some (of_string (nl ++ "SELECT 1" ++ nl)%string)
  /\ Spec.extract s = of_string "SELECT 1"
  /\ LlmApp.extract_sql_from_response s = Ok [].
Proof. vm_compute. repeat split; reflexivity. Qed.

(** ** One run of [main] *)

Arguments LlmApp.extract_sql_from_response : simpl never.
Opaque of_string.
Arguments strip : simpl never.
Arguments str_of_nat : simpl never.
Arguments LlmApp.request_of : simpl never.
Arguments LlmApp.run_query : simpl never.
Arguments LlmApp.generate_sql_with_gpt : simpl never.

(** Membership in an explicit list, case by case. *)
Ltac in_cases :=
  repeat match goal with
         | H : In _ (_ :: _) |- _ => destruct H as [H|H]
         | H : In _ [] |- _ => destruct H
         | H : _ \/ _ |- _ => destruct H as [H|H]
         | H : False |- _ => destruct H
         | H : @eq event _ _ |- _ => inversion H; clear H; subst
         end; try reflexivity; try discriminate.

Ltac unfold_monad :=
  cbv [bind ret raise lift emit try_except try_finally read_key
       get_session put_session set_generated_sql set_current_question
       set_query_history service_call] in *.

Lemma main_phases env ui :
  LlmApp.main env ui
  = (LlmApp.init_session ;;
     uq <- generate_phase env ui ;;
     run_phase env ui uq).
Proof. reflexivity. Qed.

Lemma init_session_spec w :
  LlmApp.init_session w
  = (Ok tt, {| session := initialised (session w); log := log w |}).
Proof.
  destruct w as [[[g|] [c|] [h|]] l]; reflexivity.
Qed.

(** The connection and the query of [run_query]. *)
Lemma run_query_cases env q w :
  LlmApp.run_query env q w
  = match sqlite3_connect env with
    | Raise e =>
        (Ok None,
         {| session := session w;
            log := log w ++
                   [ev_connect;
                    st_error (of_string "Failed to connect to database: "
                              ++ exn_str e)] |})
    | Ok _ =>
        match read_sql_query env q with
        | Ok df =>
            (Ok (Some df),
             {| session := session w;
                log := log w ++ [ev_connect; ev_read_sql q] |})
        | Raise e =>
            (Ok None,
             {| session := session w;
                log := log w ++
                       [ev_connect; ev_read_sql q;
                        st_error (of_string "Error executing query: "
                                  ++ exn_str e)] |})
        end
    end.
Proof.
  unfold LlmApp.run_query, LlmApp.get_db_connection. unfold_monad. simpl.
  destruct (sqlite3_connect env) as [[]|e]; simpl.
  - destruct (read_sql_query env q) as [df|e]; simpl;
      rewrite <- ?app_assoc; reflexivity.
  - rewrite <- ?app_assoc; reflexivity.
Qed.

(** The outcomes of [generate_sql_with_gpt]. *)
Lemma generate_cases env q w :
  LlmApp.generate_sql_with_gpt env q w
  = match new_client env with
    | Raise e => (Raise e, w)
    | Ok _ =>
        let req := LlmApp.request_of q in
        let failed e :=
          (Ok (None, None),
           {| session := session w;
              log := log w ++
                     [ev_chat req (session w);
                      st_error (of_string "Error calling OpenAI API: "
                                ++ exn_str e)] |}) in
        match chat_completions_create env req with
        | Raise e => failed e
        | Ok response =>
            match LlmApp.content_of response with
            | Raise e => failed e
            | Ok raw_text =>
                match LlmApp.extract_sql_from_response raw_text with
                | Raise e => failed e
                | Ok sql_query =>
                    (Ok (Some sql_query, Some response),
                     {| session := session w;
                        log := log w ++ [ev_chat req (session w)] |})
                end
            end
        end
    end.
Proof.
  unfold LlmApp.generate_sql_with_gpt, LlmApp.get_openai_client.
  unfold_monad. simpl.
  destruct (new_client env) as [[]|e]; [|reflexivity]. simpl.
  destruct (chat_completions_create env (LlmApp.request_of q)) as [resp|e];
    simpl; [|rewrite <- app_assoc; reflexivity].
  destruct (LlmApp.content_of resp) as [raw|e];
    simpl; [|rewrite <- app_assoc; reflexivity].
  destruct (LlmApp.extract_sql_from_response raw) as [sql_query|e];
    simpl; [|rewrite <- app_assoc]; reflexivity.
Qed.

(** A failing call of the language model is caught in
    [generate_sql_with_gpt]: one call, one message that carries the
    text of the exception, and the absent result. *)
Lemma generate_failure_caught env q w e :
  new_client env = Ok tt ->
  chat_completions_create env (LlmApp.request_of q) = Raise e ->
  LlmApp.generate_sql_with_gpt env q w
  = (Ok (None, None),
     {| session := session w;
        log := log w ++
               [ev_chat (LlmApp.request_of q) (session w);
                st_error (of_string "Error calling OpenAI API: "
                          ++ exn_str e)] |}).
Proof. intros Hc Hf. rewrite generate_cases, Hc. simpl. now rewrite Hf. Qed.

(** [generate_sql_with_gpt] leaves the session state alone, calls the
    model at most once and raises only when the client cannot be made. *)
Lemma generate_frame env q w :
  let out := LlmApp.generate_sql_with_gpt env q w in
  session (snd out) = session w
  /\ (exists tail,
         log (snd out) = log w ++ tail
         /\ (forall req seen, In (ev_chat req seen) tail ->
                              req = LlmApp.request_of q /\ seen = session w)
         /\ (forall x, ~ In (ev_read_sql x) tail)
         /\ (new_client env = Ok tt ->
             chat_calls tail = [ev_chat (LlmApp.request_of q) (session w)]))
  /\ (new_client env = Ok tt -> exists v, fst out = Ok v).
Proof.
  rewrite generate_cases.
  destruct (new_client env) as [[]|e]; simpl.
  2:{ split; [reflexivity|]. split; [|discriminate].
      exists []. rewrite app_nil_r. repeat split; try easy. }
  destruct (chat_completions_create env (LlmApp.request_of q)) as [resp|e];
    [destruct (LlmApp.content_of resp) as [raw|e];
     [destruct (LlmApp.extract_sql_from_response raw) as [sql_query|e]|]|];
    simpl; (split; [reflexivity|]); (split; [|intros _; eexists; reflexivity]);
    eexists; (split; [reflexivity|]); repeat split;
    try intros x H; in_cases.
Qed.

(** The block under "Generate SQL" when it is not entered. *)
Lemma generate_phase_idle env ui w :
  LlmApp.generate_clicked ui && truthy (LlmApp.question_area ui) = false ->
  generate_phase env ui w = (Ok (LlmApp.question_area ui), w).
Proof. intros H. unfold generate_phase. rewrite H. reflexivity. Qed.

(** The block under "Generate SQL" when it is entered. *)
Lemma generate_phase_active env ui w cq :
  LlmApp.generate_clicked ui = true ->
  truthy (LlmApp.question_area ui) = true ->
  current_question (session w) = Some cq ->
  generate_phase env ui w
  = let q := strip (LlmApp.question_area ui) in
    match LlmApp.generate_sql_with_gpt env q
            {| session := invalidated q (session w); log := log w |} with
    | (Raise e, w2) => (Raise e, w2)
    | (Ok out, w2) =>
        if truthy_opt (fst out)
        then (Ok q,
              {| session :=
                   {| generated_sql := Some (fst out);
                      current_question := Some (Some q);
                      query_history := query_history (session w2) |};
                 log := log w2 |})
        else (Ok q, w2)
    end.
Proof.
  intros Hg Hq Hc. unfold generate_phase, invalidated.
  rewrite Hg, Hq. unfold_monad. simpl. rewrite Hc.
  destruct w as [s l]. simpl in *.
  destruct (opt_neq cq (Some (strip (LlmApp.question_area ui)))); simpl;
    destruct (LlmApp.generate_sql_with_gpt env _ _) as [[out|e] w2];
    try reflexivity;
    match goal with
    | |- context [truthy_opt ?x] => destruct (truthy_opt x)
    end; reflexivity.
Qed.

(** The block under "Display & edit SQL". *)
Lemma run_phase_cases env ui uq w gs cq h :
  session w = {| generated_sql := Some gs;
                 current_question := Some cq;
                 query_history := Some h |} ->
  run_phase env ui uq w
  = if truthy_opt gs then
      let info := st_info (of_string "**Question:** " ++ fmt_opt cq) in
      let q := LlmApp.sql_editor ui (fmt_opt gs) in
      if LlmApp.run_clicked ui && truthy (strip q) then
        match sqlite3_connect env with
        | Raise e =>
            (Ok tt,
             {| session := session w;
                log := log w ++
                       [info; ev_connect;
                        st_error (of_string "Failed to connect to database: "
                                  ++ exn_str e)] |})
        | Ok _ =>
            match read_sql_query env q with
            | Raise e =>
                (Ok tt,
                 {| session := session w;
                    log := log w ++
                           [info; ev_connect; ev_read_sql q;
                            st_error (of_string "Error executing query: "
                                      ++ exn_str e)] |})
            | Ok df =>
                (Ok tt,
                 {| session :=
                      {| generated_sql := Some gs;
                         current_question := Some cq;
                         query_history :=
                           Some (h ++ [{| question := uq;
                                          sql := q;
                                          rows := df_len df |}]) |};
                    log := log w ++
                           [info; ev_connect; ev_read_sql q;
                            st_success ([9989%N] ++ of_string " Query returned "
                                        ++ str_of_nat (df_len df)
                                        ++ of_string " rows");
                            st_dataframe df] |})
            end
        end
      else (Ok tt, {| session := session w; log := log w ++ [info] |})
    else (Ok tt, w).
Proof.
  intros Hs. destruct w as [s l]. simpl in Hs. subst s.
  unfold run_phase. unfold_monad. simpl.
  destruct (truthy_opt gs); simpl; [|reflexivity].
  destruct (LlmApp.run_clicked ui && truthy (strip _)); simpl; [|reflexivity].
  rewrite run_query_cases. simpl.
  destruct (sqlite3_connect env) as [[]|e].
  - destruct (read_sql_query env _) as [df|e]; simpl;
      rewrite <- ?app_assoc; reflexivity.
  - simpl. rewrite <- ?app_assoc; reflexivity.
Qed.

Lemma run_main_unfold env ui s :
  run_main env ui s
  = match generate_phase env ui {| session := initialised s; log := [] |} with
    | (Ok uq, w1) => run_phase env ui uq w1
    | (Raise e, w1) => (Raise e, w1)
    end.
Proof.
  unfold run_main. rewrite main_phases. unfold bind at 1.
  rewrite init_session_spec. unfold bind. simpl.
  destruct (generate_phase env ui _) as [[uq|e] w1]; reflexivity.
Qed.

(** All the cases of the block under "Generate SQL", from a session
    state whose keys are assigned. *)
Ltac generate_all_cases env ui :=
  first
    [ rewrite (generate_phase_idle env ui) by assumption
    | erewrite (generate_phase_active env ui) by (eassumption || reflexivity);
      cbv zeta; rewrite generate_cases; unfold invalidated; simpl;
      repeat (match goal with
              | |- context [opt_neq ?a ?b] => destruct (opt_neq a b) eqn:?
              | |- context [new_client env] =>
                  destruct (new_client env) as [[]|?] eqn:?
              | |- context [chat_completions_create env ?r] =>
                  destruct (chat_completions_create env r) as [?|?] eqn:?
              | |- context [LlmApp.content_of ?r] =>
                  destruct (LlmApp.content_of r) as [?|?] eqn:?
              | |- context [LlmApp.extract_sql_from_response ?r] =>
                  destruct (LlmApp.extract_sql_from_response r) as [?|?] eqn:?
              | |- context [truthy ?r] => destruct (truthy r) eqn:?
              end; simpl) ].

(** All the cases of the block under "Display & edit SQL". *)
Ltac run_all_cases env :=
  erewrite run_phase_cases by reflexivity; cbv zeta; simpl;
  repeat (match goal with
          | H : ?x = _ |- context [if ?x then _ else _] => rewrite H
          | |- context [truthy ?a] => destruct (truthy a) eqn:?
          | |- context [truthy_opt ?a] => destruct (truthy_opt a) eqn:?
          | |- context [LlmApp.run_clicked ?u && ?b] =>
              destruct (LlmApp.run_clicked u && b) eqn:?
          | |- context [sqlite3_connect env] =>
              destruct (sqlite3_connect env) as [[]|?] eqn:?
          | |- context [read_sql_query env ?r] =>
              destruct (read_sql_query env r) as [?|?] eqn:?
          end; simpl).

(** ** The history *)

Lemma active_cases ui :
  LlmApp.generate_clicked ui && truthy (LlmApp.question_area ui) = false
  \/ (LlmApp.generate_clicked ui = true
      /\ truthy (LlmApp.question_area ui) = true).
Proof.
  destruct (LlmApp.generate_clicked ui), (truthy (LlmApp.question_area ui));
    auto.
Qed.

(** A run removes nothing from the history and changes none of its
    entries: it appends at most one. *)
Lemma history_append_only env ui s :
  exists added,
    history_of (session (snd (run_main env ui s))) = history_of s ++ added
    /\ length added <= 1.
Proof.
  rewrite run_main_unfold.
  destruct (active_cases ui) as [Hi|[Hg Hq]];
    generate_all_cases env ui; try run_all_cases env;
    solve [ exists []; rewrite app_nil_r; split; [reflexivity|simpl; lia]
          | eexists [_]; split; [reflexivity|simpl; lia] ].
Qed.

(** ** The query executors *)

(** C6.  A statement that the database refuses yields no table:
    [run_query] returns [None] and [query_db] the empty frame, and,
    once the connection is there, each reports one error message that
    carries the text of the exception. *)
Theorem failing_statement_gives_no_table :
  forall (env : Env) (q : str) (e : exn) (w : World),
    read_sql_query env q = Raise e ->
    fst (LlmApp.run_query env q w) = Ok None
    /\ (sqlite3_connect env = Ok tt ->
        LlmApp.run_query env q w
        = (Ok None,
           {| session := session w;
              log := log w ++
                     [ev_connect; ev_read_sql q;
                      st_error (of_string "Error executing query: "
                                ++ exn_str e)] |})
        /\ App.query_db env (Some q) w
           = (Ok empty_frame,
              {| session := session w;
                 log := log w ++
                        [ev_connect; ev_read_sql q;
                         st_error (of_string "SQL error: " ++ exn_str e);
                         ev_close] |})).
Proof.
  intros env q e w Hq. rewrite run_query_cases, Hq. split.
  - destruct (sqlite3_connect env) as [[]|e']; reflexivity.
  - intros Hc. rewrite Hc. split; [reflexivity|].
    unfold App.query_db. unfold_monad. simpl. rewrite Hc. simpl.
    rewrite Hq. simpl. rewrite <- !app_assoc. reflexivity.
Qed.

Lemma failing_statement_gives_no_table_witness :
  let q := of_string "SELEKT * FROM patients" in
  let e := PyExc "DatabaseError" (of_string "near 'SELEKT': syntax error") in
  let w := {| session := fresh_session; log := [] |} in
  fst (LlmApp.run_query env_sql_error q w) = Ok None
  /\ fst (App.query_db env_sql_error (Some q) w) = Ok empty_frame
  /\ errors (log (snd (LlmApp.run_query env_sql_error q w)))
     = [st_error (of_string "Error executing query: " ++ exn_str e)].
Proof.
  destruct (failing_statement_gives_no_table
              env_sql_error (of_string "SELEKT * FROM patients")
              (PyExc "DatabaseError" (of_string "near 'SELEKT': syntax error"))
              {| session := fresh_session; log := [] |} eq_refl)
    as [H1 H2].
  destruct (H2 eq_refl) as [H3 H4].
  cbv zeta. rewrite H4, H3. repeat split.
Defined.

(** ** The generators *)

(** C3.  In [app.py] a failure of the call of the language model is
    not caught: [ask_openai] raises it, and so does the section of the
    script that calls it, after the call and before anything is
    shown. *)
Theorem ask_openai_failure_escapes :
  forall (env : Env) (user_prompt : str) (w : World) (e : exn),
    strip user_prompt <> [] ->
    chat_completions_create env
      (App.request_of
         (of_string "Generate a valid SQLite query for this database: "
          ++ user_prompt)) = Raise e ->
    let prompt :=
      of_string "Generate a valid SQLite query for this database: "
      ++ user_prompt in
    let w' := {| session := session w;
                 log := log w ++ [ev_chat (App.request_of prompt)
                                          (session w)] |} in
    App.ask_openai env prompt w = (Raise e, w')
    /\ App.ask_ai env user_prompt true w = (Raise e, w').
Proof.
  intros env user_prompt w e Hne Hf prompt w'.
  assert (H : App.ask_openai env prompt w = (Raise e, w')).
  { unfold App.ask_openai. unfold_monad. simpl. fold prompt in Hf.
    now rewrite Hf. }
  split; [exact H|].
  unfold App.ask_ai.
  destruct (PyStr.eqb (strip user_prompt) []) eqn:E.
  - apply str_eqb_eq in E. contradiction.
  - simpl. unfold bind at 1. fold prompt. now rewrite H.
Qed.

Lemma ask_openai_failure_escapes_witness :
  let w := {| session := fresh_session; log := [] |} in
  fst (App.ask_ai env_llm_down (of_string "How many patients?") true w)
  = Raise (PyExc "APIConnectionError" (of_string "Connection error."))
  /\ errors (log (snd (App.ask_ai env_llm_down
                         (of_string "How many patients?") true w))) = [].
Proof.
  assert (Hne : strip (of_string "How many patients?") <> [])
    by (vm_compute; discriminate).
  destruct (ask_openai_failure_escapes
              env_llm_down (of_string "How many patients?")
              {| session := fresh_session; log := [] |}
              (PyExc "APIConnectionError" (of_string "Connection error."))
              Hne eq_refl)
    as [_ H].
  cbv zeta in *. rewrite H. split; reflexivity.
Defined.

(** ** The session *)

Lemma opt_neq_false a b : opt_neq a b = false -> a = b.
Proof.
  destruct a as [x|], b as [y|]; simpl; try discriminate; try reflexivity.
  intros H. apply negb_false_iff, str_eqb_eq in H. now subst.
Qed.

(** C9.  A click on "Clear History" leaves the session state as it
    is, the history with its entries included: the value of the button
    is never read. *)
Theorem clear_history_keeps_entries :
  forall (env : Env) (q : str) (ed : str -> str)
         (gs cq : option str) (e : HistoryEntry) (h : list HistoryEntry),
    let s := {| generated_sql := Some gs;
                current_question := Some cq;
                query_history := Some (e :: h) |} in
    session (snd (run_main env (click_clear q ed) s)) = s.
Proof.
  intros env q ed gs cq e h s. subst s. rewrite run_main_unfold.
  rewrite generate_phase_idle by reflexivity.
  erewrite run_phase_cases by reflexivity.
  simpl. destruct (truthy_opt gs); reflexivity.
Qed.

(** C10.  The entry that a successful "Run Query" appends holds the
    text of the question area of that run, whatever question is
    recorded with the generated SQL, next to the SQL of the editor. *)
Theorem history_question_is_text_area :
  forall (env : Env) (ui : LlmApp.Widgets) (g : str) (cq : option str)
         (h : list HistoryEntry) (df : DataFrame),
    LlmApp.generate_clicked ui = false ->
    LlmApp.run_clicked ui = true ->
    truthy g = true ->
    truthy (strip (LlmApp.sql_editor ui g)) = true ->
    sqlite3_connect env = Ok tt ->
    read_sql_query env (LlmApp.sql_editor ui g) = Ok df ->
    session (snd (run_main env ui
                    {| generated_sql := Some (Some g);
                       current_question := Some cq;
                       query_history := Some h |}))
    = {| generated_sql := Some (Some g);
         current_question := Some cq;
         query_history :=
           Some (h ++ [{| question := LlmApp.question_area ui;
                          sql := LlmApp.sql_editor ui g;
                          rows := df_len df |}]) |}.
Proof.
  intros env ui g cq h df Hg Hr Ht He Hc Hq. rewrite run_main_unfold.
  rewrite generate_phase_idle by (now rewrite Hg).
  erewrite run_phase_cases by reflexivity.
  simpl. rewrite Ht, Hr, He, Hc, Hq. reflexivity.
Qed.

Lemma history_question_is_text_area_witness :
  run_all [(env_ok, click_generate (of_string "How many patients?"));
           (env_ok, click_run (of_string "Average length of stay?")
                              (fun v => v))]
          fresh_session
  = {| generated_sql := Some (Some (of_string "SELECT 1"));
       current_question := Some (Some (of_string "How many patients?"));
       query_history :=
         Some [{| question := of_string "Average length of stay?";
                  sql := of_string "SELECT 1";
                  rows := 2 |}] |}.
Proof.
  assert (H1 : session (snd (run_main env_ok
                               (click_generate (of_string "How many patients?"))
                               fresh_session))
               = {| generated_sql := Some (Some (of_string "SELECT 1"));
                    current_question :=
                      Some (Some (of_string "How many patients?"));
                    query_history := Some [] |})
    by (vm_compute; reflexivity).
  unfold run_all. rewrite H1.
  apply (history_question_is_text_area
           env_ok
           (click_run (of_string "Average length of stay?") (fun v => v))
           (of_string "SELECT 1")
           (Some (of_string "How many patients?")) [] sample_frame);
    reflexivity.
Defined.

(** C5.  The history grows exactly when a statement was executed with
    success: after a failed execution, and when nothing was executed,
    the history is what it was; after a successful one it has one more
    entry, whose row count is the length of the table returned. *)
Theorem history_grows_iff_success :
  forall (env : Env) (ui : LlmApp.Widgets) (s : SessionState),
    let w := snd (run_main env ui s) in
    (forall q e, In (ev_read_sql q) (log w) ->
                 read_sql_query env q = Raise e ->
                 history_of (session w) = history_of s)
    /\ (forall q df, In (ev_read_sql q) (log w) ->
                     read_sql_query env q = Ok df ->
                     exists uq,
                       history_of (session w)
                       = history_of s ++ [{| question := uq;
                                             sql := q;
                                             rows := df_len df |}])
    /\ ((forall q, ~ In (ev_read_sql q) (log w)) ->
        history_of (session w) = history_of s)
    /\ (forall e, In e (history_of (session w)) ->
                  In e (history_of s)
                  \/ exists q df,
                       In (ev_read_sql q) (log w)
                       /\ read_sql_query env q = Ok df
                       /\ rows e = df_len df).
Proof.
  intros env ui s w. subst w. rewrite run_main_unfold.
  destruct (active_cases ui) as [Hi|[Hg Hq]];
    generate_all_cases env ui; try run_all_cases env;
    (split; [|split; [|split]]).
  all: try (intros q e Hin Hx; simpl in *; try reflexivity;
            in_cases; congruence).
  all: try (intros q df Hin Hx; simpl in *; in_cases; try congruence;
            match goal with
            | H1 : read_sql_query ?v ?q = Ok ?a,
              H2 : read_sql_query ?v ?q = Ok ?b |- _ =>
                rewrite H1 in H2; injection H2 as <-
            end; eexists; reflexivity).
  all: try (intros Hno; try reflexivity;
            exfalso; eapply Hno; simpl; eauto 10).
  all: intros x Hin; simpl in Hin; try (now left);
    (apply in_app_or in Hin; destruct Hin as [Hin|[<-|[]]];
     [now left|right; do 2 eexists;
               split; [simpl; eauto 10|split; [eassumption|reflexivity]]]).
Qed.

Lemma history_grows_iff_success_witness :
  history_of (session (snd (run_main env_ok
                              (click_run (of_string "How many?") (fun v => v))
                              {| generated_sql := Some (Some (of_string "SELECT 1"));
                                 current_question := Some (Some (of_string "How many?"));
                                 query_history := Some [] |})))
  <> []
  /\ history_of (session (snd (run_main env_sql_error
                                 (click_run (of_string "How many?") (fun v => v))
                                 {| generated_sql := Some (Some (of_string "SELECT 1"));
                                    current_question := Some (Some (of_string "How many?"));
                                    query_history := Some [] |})))
     = [].
Proof.
  split.
  - destruct (history_grows_iff_success
                env_ok (click_run (of_string "How many?") (fun v => v))
                {| generated_sql := Some (Some (of_string "SELECT 1"));
                   current_question := Some (Some (of_string "How many?"));
                   query_history := Some [] |})
      as (_ & H & _).
    destruct (H (of_string "SELECT 1") sample_frame) as [uq Huq].
    + vm_compute. auto 10.
    + reflexivity.
    + rewrite Huq. discriminate.
  - destruct (history_grows_iff_success
                env_sql_error (click_run (of_string "How many?") (fun v => v))
                {| generated_sql := Some (Some (of_string "SELECT 1"));
                   current_question := Some (Some (of_string "How many?"));
                   query_history := Some [] |})
      as (H & _).
    apply (H (of_string "SELECT 1")
             (PyExc "DatabaseError" (of_string "near 'SELEKT': syntax error"))).
    + vm_compute. auto 10.
    + reflexivity.
Defined.

Lemma recorded_differs s q :
  current_question s <> Some (Some q) ->
  opt_neq match current_question s with Some v => v | None => None end
          (Some q) = true.
Proof.
  intros H.
  destruct (opt_neq _ _) eqn:E; [reflexivity|].
  apply opt_neq_false in E.
  destruct (current_question s) as [[x|]|]; try discriminate.
  congruence.
Qed.

(** C4.  When "Generate SQL" runs with a question that is not the
    recorded one, the language model is called in a session state
    whose generated SQL and recorded question are reset, and the SQL
    the run leaves in the session state is either none or the one
    extracted from the answer to the new question. *)
Theorem stale_sql_cleared_before_generate :
  forall (env : Env) (ui : LlmApp.Widgets) (s : SessionState),
    LlmApp.generate_clicked ui = true ->
    truthy (LlmApp.question_area ui) = true ->
    current_question s <> Some (Some (strip (LlmApp.question_area ui))) ->
    let q := strip (LlmApp.question_area ui) in
    let w := snd (run_main env ui s) in
    (forall req seen,
        In (ev_chat req seen) (log w) ->
        req = LlmApp.request_of q
        /\ generated_sql seen = Some None
        /\ current_question seen = Some None)
    /\ (new_client env = Ok tt ->
        exists seen, chat_calls (log w) = [ev_chat (LlmApp.request_of q) seen])
    /\ (generated_sql (session w) = Some None
        \/ exists response raw_text sql_query,
             chat_completions_create env (LlmApp.request_of q) = Ok response
             /\ LlmApp.content_of response = Ok raw_text
             /\ LlmApp.extract_sql_from_response raw_text = Ok sql_query
             /\ generated_sql (session w) = Some (Some sql_query)
             /\ current_question (session w) = Some (Some q)).
Proof.
  intros env ui s Hg Hq Hne q w. subst q w.
  apply recorded_differs in Hne.
  rewrite run_main_unfold.
  generate_all_cases env ui; try congruence; try run_all_cases env;
    (split; [|split]).
  all: try (intros req seen Hin; simpl in Hin; in_cases; now repeat split).
  all: try (intros Hc; try discriminate; eexists; reflexivity).
  all: try (left; reflexivity).
  all: right; do 3 eexists; repeat split; eassumption.
Qed.

Lemma stale_sql_cleared_before_generate_witness :
  let s := {| generated_sql := Some (Some (of_string "SELECT 1"));
              current_question := Some (Some (of_string "question A"));
              query_history := Some [] |} in
  let ui := click_generate (of_string "question B") in
  current_question s <> Some (Some (strip (LlmApp.question_area ui)))
  /\ (forall req seen,
         In (ev_chat req seen) (log (snd (run_main env_llm_down ui s))) ->
         generated_sql seen = Some None)
  /\ generated_sql (session (snd (run_main env_llm_down ui s))) = Some None.
Proof.
  assert (Hne : current_question
                  {| generated_sql := Some (Some (of_string "SELECT 1"));
                     current_question := Some (Some (of_string "question A"));
                     query_history := Some [] |}
                <> Some (Some (strip (LlmApp.question_area
                                        (click_generate
                                           (of_string "question B"))))))
    by (vm_compute; discriminate).
  destruct (stale_sql_cleared_before_generate
              env_llm_down (click_generate (of_string "question B"))
              {| generated_sql := Some (Some (of_string "SELECT 1"));
                 current_question := Some (Some (of_string "question A"));
                 query_history := Some [] |}
              eq_refl eq_refl Hne)
    as (H1 & _ & H3).
  cbv zeta. split; [exact Hne|]. split.
  - intros req seen Hin. now destruct (H1 req seen Hin) as (_ & H & _).
  - destruct H3 as [H3|(r & t & q & H & _)]; [exact H3|discriminate H].
Defined.

(** ** Empty questions *)

(** C2.  A question made of white space only is not turned away in
    [llm_app.py]: it passes the test of the button, is trimmed to the
    empty string, and the language model is called with it. *)
Theorem whitespace_question_reaches_model :
  forall (env : Env) (ui : LlmApp.Widgets) (s : SessionState),
    LlmApp.generate_clicked ui = true ->
    truthy (LlmApp.question_area ui) = true ->
    strip (LlmApp.question_area ui) = [] ->
    new_client env = Ok tt ->
    exists seen,
      chat_calls (log (snd (run_main env ui s)))
      = [ev_chat (LlmApp.request_of []) seen].
Proof.
  intros env ui s Hg Hq Hs Hc.
  rewrite run_main_unfold.
  generate_all_cases env ui; try congruence; try run_all_cases env;
    rewrite ?Hs; eexists; reflexivity.
Qed.

Lemma whitespace_question_reaches_model_witness :
  exists seen,
    chat_calls (log (snd (run_main env_ok (click_generate (of_string "   "))
                            fresh_session)))
    = [ev_chat (LlmApp.request_of []) seen].
Proof.
  apply (whitespace_question_reaches_model
           env_ok (click_generate (of_string "   ")) fresh_session);
    vm_compute; reflexivity.
Defined.

(** The empty question is turned away in [llm_app.py]. *)
Lemma empty_question_rejected env ui s :
  LlmApp.question_area ui = [] ->
  chat_calls (log (snd (run_main env ui s))) = [].
Proof.
  intros Hq. rewrite run_main_unfold.
  rewrite generate_phase_idle
    by (rewrite Hq; apply andb_false_r).
  run_all_cases env; reflexivity.
Qed.

(** In [app.py] the empty question and the question of white space
    are both turned away. *)
Lemma app_blank_prompt_rejected env user_prompt clicked w :
  strip user_prompt = [] -> App.ask_ai env user_prompt clicked w = (Ok tt, w).
Proof.
  intros H. unfold App.ask_ai. rewrite H.
  destruct clicked; reflexivity.
Qed.

(** In [llm_app.py] a run raises nothing once the client is there,
    whatever the language model and the database do. *)
Lemma run_main_survives env ui s :
  new_client env = Ok tt -> fst (run_main env ui s) = Ok tt.
Proof.
  intros Hc. rewrite run_main_unfold.
  destruct (active_cases ui) as [Hi|[Hg Hq]];
    generate_all_cases env ui; try congruence; try run_all_cases env;
    reflexivity.
Qed.

(** * Further properties *)

(** ** More on the extractor *)

Lemma lstrip_head c t x : lstrip x = c :: t -> isspace c = false.
Proof.
  induction x as [|a x IH]; simpl; [discriminate|].
  destruct (isspace a) eqn:Ha; [exact IH|].
  intros [= <- <-]. exact Ha.
Qed.

Lemma rstrip_last x : forall t c, rstrip x = t ++ [c] -> isspace c = false.
Proof.
  induction x as [|a x IH]; intros t c; simpl.
  - destruct t; discriminate.
  - destruct (rstrip x) as [|y w] eqn:E.
    + destruct (isspace a) eqn:Ha.
      * destruct t; discriminate.
      * destruct t as [|b [|b' t]]; try discriminate.
        intros [= <-]. exact Ha.
    + destruct t as [|b t]; [discriminate|].
      intros [= <- H]. now apply (IH t c).
Qed.

Lemma strip_is_trimmed x :
  strip (strip x) = strip x
  /\ (forall c t, strip x = c :: t -> isspace c = false)
  /\ (forall t c, strip x = t ++ [c] -> isspace c = false).
Proof.
  split; [apply strip_idem|]. split.
  - intros c t E. unfold strip in E. rewrite <- lstrip_rstrip_head in E.
    now apply lstrip_head in E.
  - intros t c E. unfold strip in E. now apply rstrip_last in E.
Qed.

Lemma extract_strip_form s :
  exists x, LlmApp.extract_sql_from_response s = Ok (strip x).
Proof.
  rewrite extract_first_match.
  destruct (first_match sql_flags LlmApp.sql_pattern s) as [m|];
    [|destruct (first_match code_flags LlmApp.code_pattern s) as [m|]];
    eexists; reflexivity.
Qed.

(** X1.  What the extractor returns is trimmed: it neither begins nor
    ends with white space, so that trimming it again changes
    nothing. *)
Theorem extract_is_trimmed :
  forall s : str,
  exists r : str,
    LlmApp.extract_sql_from_response s = Ok r
    /\ strip r = r
    /\ (forall c t, r = c :: t -> isspace c = false)
    /\ (forall t c, r = t ++ [c] -> isspace c = false).
Proof.
  intros s. destruct (extract_strip_form s) as [x ->].
  eexists. split; [reflexivity|apply strip_is_trimmed].
Qed.

(** A fence in a string. *)
Lemma fence_found a b :
  Spec.until_fence (a ++ LlmApp.fence ++ b) <> None.
Proof.
  induction a as [|c a IH].
  - change (Some (@nil char, b) <> None). discriminate.
  - change ((c :: a) ++ LlmApp.fence ++ b)
      with (c :: (a ++ LlmApp.fence ++ b)).
    rewrite until_fence_cons.
    destruct (Spec.after_prefix N.eqb LlmApp.fence (c :: a ++ LlmApp.fence ++ b));
      [discriminate|].
    destruct (Spec.until_fence (a ++ LlmApp.fence ++ b)) as [[x y]|];
      [discriminate|contradiction].
Qed.

Lemma no_fence_iff s :
  Spec.until_fence s = None <-> forall a b, s <> a ++ LlmApp.fence ++ b.
Proof.
  split.
  - intros H a b ->. now apply (fence_found a b).
  - intros H. destruct (Spec.until_fence s) as [[b r]|] eqn:U; [|reflexivity].
    apply until_fence_split in U. now apply H in U.
Qed.

(** X2.  A response without a fence is returned whole, trimmed. *)
Theorem no_fence_returns_trimmed_input :
  forall s : str,
    (forall a b, s <> a ++ LlmApp.fence ++ b) ->
    LlmApp.extract_sql_from_response s = Ok (strip s).
Proof. intros s H. apply extract_no_fence. now apply no_fence_iff. Qed.

Lemma no_fence_returns_trimmed_input_witness :
  LlmApp.extract_sql_from_response (of_string "  SELECT 2; ")
  = Ok (of_string "SELECT 2;").
Proof.
  apply (no_fence_returns_trimmed_input (of_string "  SELECT 2; ")).
  apply no_fence_iff. vm_compute. reflexivity.
Defined.

Lemma no_fence_tail c t :
  Spec.until_fence (c :: t) = None -> Spec.until_fence t = None.
Proof.
  rewrite until_fence_cons.
  destruct (Spec.after_prefix N.eqb LlmApp.fence (c :: t)); [discriminate|].
  destruct (Spec.until_fence t) as [[b r]|]; [discriminate|reflexivity].
Qed.

Lemma no_fence_suffix p t :
  Spec.until_fence (p ++ t) = None -> Spec.until_fence t = None.
Proof.
  induction p as [|c p IH]; [trivial|].
  intros H. apply IH. now apply (no_fence_tail c).
Qed.

Lemma no_fence_prefix p w :
  Spec.until_fence (p ++ w) = None -> Spec.until_fence p = None.
Proof.
  intros H. destruct (Spec.until_fence p) as [[b r]|] eqn:U; [|reflexivity].
  apply until_fence_split in U. subst p.
  exfalso. apply (fence_found b (r ++ w)).
  now rewrite <- H, <- !app_assoc.
Qed.

Lemma fence_prefix_eq s u :
  Spec.after_prefix N.eqb LlmApp.fence s = Some u -> s = LlmApp.fence ++ u.
Proof.
  intros H. destruct s as [|c s]; [discriminate|].
  apply (until_fence_split (c :: s) [] u).
  rewrite until_fence_cons. now rewrite H.
Qed.

Lemma after_last_fence_split u rest :
  after_last_fence u = Some rest ->
  exists y, u = y ++ rest /\ Spec.until_fence rest = None.
Proof.
  revert rest. induction u as [|c u IH]; intros rest; [discriminate|].
  simpl after_last_fence.
  destruct (after_last_fence u) as [r|] eqn:L.
  - intros [= ->]. destruct (IH rest eq_refl) as (y & -> & H).
    now exists (c :: y).
  - intros H. apply fence_prefix_eq in H.
    exists LlmApp.fence. split; [exact H|].
    apply no_last_fence_no_fence in L.
    injection H as _ H. subst u.
    now apply (no_fence_suffix [LlmApp.backtick; LlmApp.backtick]).
Qed.

Lemma scan_skip fl r x rest :
  Re.scan fl r (x ++ rest) (length x) = Re.scan fl r rest 0.
Proof. induction x as [|c x IH]; [reflexivity|exact IH]. Qed.

Lemma scan_code_no_fence t :
  Spec.until_fence t = None ->
  Re.scan code_flags LlmApp.code_pattern t 0 = [].
Proof.
  induction t as [|c t IH]; intros H.
  - cbn [Re.scan]. rewrite code_match_at. reflexivity.
  - cbn [Re.scan]. rewrite code_match_at.
    rewrite until_fence_cons in H.
    destruct (Spec.after_prefix N.eqb LlmApp.fence (c :: t)); [discriminate|].
    destruct (Spec.until_fence t) as [[b r]|]; [discriminate|].
    now apply IH.
Qed.

(** X3.  The generic pattern finds at most one match in a response,
    and the group of that match is empty: its greedy first part runs
    to the last fence of the response. *)
Theorem code_pattern_finds_one_empty_group :
  forall s : str,
    Re.findall LlmApp.code_pattern s (Re.Flags true false) = []
    \/ Re.findall LlmApp.code_pattern s (Re.Flags true false) = [[]].
Proof.
  intros s. unfold Re.findall. fold code_flags.
  induction s as [|c s IH].
  - left. cbn [Re.scan]. rewrite code_match_at. reflexivity.
  - cbn [Re.scan]. rewrite code_match_at.
    destruct (Spec.after_prefix N.eqb LlmApp.fence (c :: s)) as [u|] eqn:F;
      [|exact IH].
    destruct (after_last_fence u) as [rest|] eqn:L; [|exact IH].
    right. apply fence_prefix_eq in F.
    destruct (after_last_fence_split _ _ L) as (y & -> & Hn).
    injection F as _ F. subst s.
    change (LlmApp.backtick :: LlmApp.backtick :: y ++ rest)
      with ((LlmApp.backtick :: LlmApp.backtick :: y) ++ rest).
    replace (length (c :: (LlmApp.backtick :: LlmApp.backtick :: y) ++ rest)
             - length rest)
      with (S (length (LlmApp.backtick :: LlmApp.backtick :: y)))
      by (cbn [length app]; rewrite length_app; lia).
    rewrite scan_skip, (scan_code_no_fence _ Hn). reflexivity.
Qed.

Lemma after_prefix_grow same p s u w :
  Spec.after_prefix same p s = Some u ->
  Spec.after_prefix same p (s ++ w) = Some (u ++ w).
Proof.
  revert s. induction p as [|a p IH]; intros s.
  - intros [= ->]. reflexivity.
  - destruct s as [|c s]; [discriminate|].
    change (Spec.after_prefix same (a :: p) (c :: s))
      with (if same a c then Spec.after_prefix same p s else None).
    change (Spec.after_prefix same (a :: p) ((c :: s) ++ w))
      with (if same a c then Spec.after_prefix same p (s ++ w) else None).
    destruct (same a c); [apply IH|discriminate].
Qed.

Lemma block_content_no_fence u : forall b r,
  Spec.until_fence u = Some (b, r) -> Spec.until_fence b = None.
Proof.
  induction u as [|c u IH]; intros b r; [discriminate|].
  rewrite until_fence_cons.
  destruct (Spec.after_prefix N.eqb LlmApp.fence (c :: u)) as [x|] eqn:F.
  - intros [= <- <-]. reflexivity.
  - destruct (Spec.until_fence u) as [[b' r']|] eqn:U; [|discriminate].
    intros [= <- <-]. rewrite until_fence_cons, (IH b' r' eq_refl).
    destruct (Spec.after_prefix N.eqb LlmApp.fence (c :: b')) as [x|] eqn:G;
      [|reflexivity].
    apply until_fence_split in U. subst u.
    apply (after_prefix_grow _ _ _ _ (LlmApp.fence ++ r')) in G.
    simpl app in G. simpl app in F. congruence.
Qed.

Lemma first_block_tail here c t :
  Spec.first_block here (c :: t) = None -> Spec.first_block here t = None.
Proof. cbn [Spec.first_block]. destruct (here (c :: t)); [discriminate|trivial]. Qed.

Lemma first_block_suffix here p t :
  Spec.first_block here (p ++ t) = None -> Spec.first_block here t = None.
Proof.
  induction p as [|c p IH]; [trivial|].
  intros H. apply IH. now apply (first_block_tail here c).
Qed.

Lemma first_block_here here t :
  Spec.first_block here t = None -> here t = None.
Proof.
  destruct t; cbn [Spec.first_block]; destruct (here _); congruence.
Qed.

Lemma first_block_prefix here p w :
  (forall x b, here x = Some b -> here (x ++ w) <> None) ->
  Spec.first_block here (p ++ w) = None -> Spec.first_block here p = None.
Proof.
  intros mono. induction p as [|c p IH]; intros H.
  - cbn [Spec.first_block]. destruct (here []) as [b|] eqn:E; [|reflexivity].
    apply mono in E. apply first_block_here in H. contradiction.
  - cbn [Spec.first_block]. destruct (here (c :: p)) as [b|] eqn:E.
    + apply mono in E. apply first_block_here in H. contradiction.
    + apply IH. now apply (first_block_tail here c).
Qed.

Lemma until_fence_grow u w b r :
  Spec.until_fence u = Some (b, r) -> Spec.until_fence (u ++ w) <> None.
Proof.
  intros H E. apply no_fence_prefix in E. congruence.
Qed.

Lemma sql_block_here_grow w x b :
  sql_opening_here x = Some b -> sql_opening_here (x ++ w) <> None.
Proof.
  unfold sql_opening_here.
  destruct (Spec.after_prefix same_letter _ x) as [u|] eqn:E;
    [|discriminate].
  rewrite (after_prefix_grow _ _ _ _ w E).
  destruct (Spec.until_fence u) as [[b' r]|] eqn:U; [|discriminate].
  intros _. destruct (Spec.until_fence (u ++ w)) eqn:V; [discriminate|].
  now apply (until_fence_grow u w b' r) in V.
Qed.

Lemma block_here_grow w x b :
  Spec.block_here x = Some b -> Spec.block_here (x ++ w) <> None.
Proof.
  unfold Spec.block_here.
  destruct (Spec.after_prefix N.eqb _ x) as [u|] eqn:E; [|discriminate].
  rewrite (after_prefix_grow _ _ _ _ w E).
  destruct (Spec.until_fence u) as [[b' r]|] eqn:U; [|discriminate].
  intros _. destruct (Spec.until_fence (u ++ w)) eqn:V; [discriminate|].
  now apply (until_fence_grow u w b' r) in V.
Qed.

Lemma lstrip_suffix s : exists p, s = p ++ lstrip s.
Proof.
  induction s as [|c s [p IH]]; [now exists []|].
  simpl. destruct (isspace c); [|now exists []].
  exists (c :: p). simpl. now rewrite <- IH.
Qed.

Lemma first_block_strip here s :
  (forall w x b, here x = Some b -> here (x ++ w) <> None) ->
  Spec.first_block here s = None -> Spec.first_block here (strip s) = None.
Proof.
  intros mono H. unfold strip.
  destruct (lstrip_suffix s) as [p Hp].
  destruct (rstrip_prefix (lstrip s)) as [w Hw].
  rewrite Hp in H. apply first_block_suffix in H.
  rewrite Hw in H. now apply (first_block_prefix here _ w (mono w)) in H.
Qed.

Lemma first_sql_opening_no_fence s b :
  first_sql_opening s = Some b -> Spec.until_fence b = None.
Proof.
  unfold first_sql_opening.
  induction s as [|c s IH]; cbn [Spec.first_block];
    unfold sql_opening_here at 1;
    destruct (Spec.after_prefix same_letter _ _) as [u|];
    try destruct (Spec.until_fence u) as [[b' r]|] eqn:U; simpl;
    try discriminate; try exact IH;
    intros [= <-]; now apply (block_content_no_fence u b' r).
Qed.

Lemma first_block_found here s b :
  Spec.first_block here s = Some b ->
  exists pre t, s = pre ++ t /\ here t = Some b.
Proof.
  induction s as [|c s IH]; cbn [Spec.first_block].
  - destruct (here []) as [x|] eqn:E; [|discriminate].
    intros [= ->]. now exists [], [].
  - destruct (here (c :: s)) as [x|] eqn:E.
    + intros [= ->]. now exists [], (c :: s).
    + intros H. destruct (IH H) as (pre & t & -> & Ht).
      now exists (c :: pre), t.
Qed.

Lemma after_prefix_shape same p : forall t u,
  Spec.after_prefix same p t = Some u ->
  exists m, t = m ++ u /\ Forall2 (fun a c => same a c = true) p m.
Proof.
  induction p as [|a p IH]; intros t u.
  - intros [= ->]. exists []. split; [reflexivity|constructor].
  - destruct t as [|c t]; [discriminate|].
    change (Spec.after_prefix same (a :: p) (c :: t))
      with (if same a c then Spec.after_prefix same p t else None).
    destruct (same a c) eqn:E; [|discriminate].
    intros H. destruct (IH t u H) as (m & -> & F).
    exists (c :: m). split; [reflexivity|now constructor].
Qed.

(** What [first_sql_opening] finds, in terms of the text: a fence,
    three letters that read [sql], the text found, which holds no
    fence, and the next fence. *)
Lemma first_sql_opening_shape s b :
  first_sql_opening s = Some b ->
  exists pre tag post,
    s = pre ++ LlmApp.fence ++ tag ++ b ++ LlmApp.fence ++ post
    /\ Forall2 (fun p c => same_letter p c = true) (of_string "sql") tag
    /\ (forall x y, b <> x ++ LlmApp.fence ++ y).
Proof.
  intros H. assert (Hb := first_sql_opening_no_fence _ _ H).
  apply first_block_found in H. destruct H as (pre & t & -> & H).
  unfold sql_opening_here in H. rewrite after_prefix_app in H.
  unfold same_letter in H at 1.
  rewrite (after_prefix_fence (Re.Flags true true)) in H.
  destruct (Spec.after_prefix N.eqb LlmApp.fence t) as [t1|] eqn:F;
    [|discriminate].
  apply fence_prefix_eq in F. subst t.
  destruct (Spec.after_prefix same_letter (of_string "sql") t1) as [u|] eqn:T;
    [|discriminate].
  apply after_prefix_shape in T. destruct T as (tag & -> & T).
  destruct (Spec.until_fence u) as [[b' r]|] eqn:U; [|discriminate].
  simpl in H. injection H as ->.
  apply until_fence_split in U. subst u.
  exists pre, tag, r. split; [reflexivity|]. split; [exact T|].
  now apply no_fence_iff.
Qed.

(** X4.  Extracting from what the extractor returned gives the same
    text again: the result holds no block that a second pass would
    open. *)
Theorem extract_idempotent :
  forall s : str,
  exists r : str,
    LlmApp.extract_sql_from_response s = Ok r
    /\ LlmApp.extract_sql_from_response r = Ok r.
Proof.
  intros s. rewrite extract_first_match, sql_first_match.
  destruct (first_sql_opening s) as [b|] eqn:S1; simpl.
  - eexists; split; [reflexivity|].
    rewrite strip_idem, extract_no_fence; [now rewrite strip_idem|].
    apply first_sql_opening_no_fence in S1.
    unfold strip. destruct (lstrip_suffix b) as [p Hp].
    destruct (rstrip_prefix (lstrip b)) as [w Hw].
    rewrite Hp in S1. apply no_fence_suffix in S1.
    rewrite Hw in S1. now apply no_fence_prefix in S1.
  - destruct (first_match code_flags LlmApp.code_pattern s) as [m|] eqn:S2.
    + apply code_first_match in S2. subst m.
      eexists; split; [reflexivity|]. vm_compute. reflexivity.
    + eexists; split; [reflexivity|].
      assert (G : Spec.first_generic_block s = None).
      { destruct (Spec.first_generic_block s) as [b|] eqn:G; [|reflexivity].
        now apply generic_block_matched in G. }
      apply (first_block_strip _ _ sql_block_here_grow) in S1.
      apply (first_block_strip _ _ block_here_grow) in G.
      rewrite extract_first_match, sql_first_match.
      unfold first_sql_opening, Spec.first_generic_block in *.
      rewrite S1. simpl.
      rewrite (no_generic_block_no_match _ G). now rewrite strip_idem.
Qed.

(** ** More on the executors and the generators *)

(** X5.  [run_query] never raises and leaves the session state alone;
    it returns a table exactly when the connection was made and the
    database accepted the statement. *)
Theorem run_query_returns_table_iff :
  forall (env : Env) (q : str) (w : World),
    session (snd (LlmApp.run_query env q w)) = session w
    /\ (exists r, fst (LlmApp.run_query env q w) = Ok r)
    /\ (forall df,
           fst (LlmApp.run_query env q w) = Ok (Some df)
           <-> sqlite3_connect env = Ok tt /\ read_sql_query env q = Ok df).
Proof.
  intros env q w. rewrite run_query_cases.
  destruct (sqlite3_connect env) as [[]|e];
    [destruct (read_sql_query env q) as [d|e]|]; simpl;
    (split; [reflexivity|]); (split; [eexists; reflexivity|]);
    intros df; split; try discriminate; try (intros [H1 H2]; congruence).
  intros [= ->]. now split.
Qed.

(** X6.  When the database cannot be opened [run_query] shows the
    failure with the text of the exception, returns no table and does
    not send the statement. *)
Theorem run_query_without_connection :
  forall (env : Env) (q : str) (w : World) (e : exn),
    sqlite3_connect env = Raise e ->
    LlmApp.run_query env q w
    = (Ok None,
       {| session := session w;
          log := log w ++
                 [ev_connect;
                  st_error (of_string "Failed to connect to database: "
                            ++ exn_str e)] |}).
Proof. intros env q w e H. now rewrite run_query_cases, H. Qed.

Lemma run_query_without_connection_witness :
  fst (LlmApp.run_query env_no_database (of_string "SELECT 1")
         {| session := fresh_session; log := [] |}) = Ok None
  /\ reads (log (snd (LlmApp.run_query env_no_database (of_string "SELECT 1")
                        {| session := fresh_session; log := [] |}))) = [].
Proof.
  rewrite (run_query_without_connection
             env_no_database (of_string "SELECT 1")
             {| session := fresh_session; log := [] |}
             (PyExc "OperationalError"
                (of_string "unable to open database file")) eq_refl).
  split; reflexivity.
Defined.

Lemma content_of_first resp raw rest :
  choices resp = Some raw :: rest -> LlmApp.content_of resp = Ok raw.
Proof. unfold LlmApp.content_of, py_index. now intros ->. Qed.

(** X7.  When the model answers, [generate_sql_with_gpt] calls it
    once, hands the content of the first choice to the extractor and
    returns what the extractor gives, with the response; it shows
    nothing. *)
Theorem generate_returns_extracted_sql :
  forall (env : Env) (question : str) (w : World)
         (response : ChatCompletion) (raw_text : str) (rest : list (option str)),
    new_client env = Ok tt ->
    chat_completions_create env (LlmApp.request_of question) = Ok response ->
    choices response = Some raw_text :: rest ->
    exists sql_query,
      LlmApp.extract_sql_from_response raw_text = Ok sql_query
      /\ LlmApp.generate_sql_with_gpt env question w
         = (Ok (Some sql_query, Some response),
            {| session := session w;
               log := log w ++ [ev_chat (LlmApp.request_of question)
                                        (session w)] |}).
Proof.
  intros env question w response raw_text rest Hc Hr Hch.
  destruct (extract_strip_form raw_text) as [x Hx].
  exists (strip x). split; [exact Hx|].
  rewrite generate_cases, Hc. simpl.
  now rewrite Hr, (content_of_first _ _ _ Hch), Hx.
Qed.

Lemma generate_returns_extracted_sql_witness :
  fst (LlmApp.generate_sql_with_gpt env_ok (of_string "How many patients?")
         {| session := fresh_session; log := [] |})
  = Ok (Some (of_string "SELECT 1"),
        Some {| choices := [Some fenced_answer] |}).
Proof.
  destruct (generate_returns_extracted_sql
              env_ok (of_string "How many patients?")
              {| session := fresh_session; log := [] |}
              {| choices := [Some fenced_answer] |} fenced_answer []
              eq_refl eq_refl eq_refl)
    as (r & Hx & ->).
  simpl. f_equal. f_equal. f_equal.
  assert (E : LlmApp.extract_sql_from_response fenced_answer
              = Ok (of_string "SELECT 1")) by (vm_compute; reflexivity).
  congruence.
Defined.

(** X8.  An answer without a choice, or whose first choice has a null
    content, is handled as a failure of the call: one error message
    and the absent result. *)
Theorem generate_malformed_answer_caught :
  forall (env : Env) (question : str) (w : World)
         (response : ChatCompletion),
    new_client env = Ok tt ->
    chat_completions_create env (LlmApp.request_of question) = Ok response ->
    hd_error (choices response) = None
    \/ hd_error (choices response) = Some None ->
    exists msg,
      LlmApp.generate_sql_with_gpt env question w
      = (Ok (None, None),
         {| session := session w;
            log := log w ++
                   [ev_chat (LlmApp.request_of question) (session w);
                    st_error (of_string "Error calling OpenAI API: "
                              ++ msg)] |}).
Proof.
  intros env question w response Hc Hr Hch.
  rewrite generate_cases, Hc. simpl. rewrite Hr.
  unfold LlmApp.content_of, py_index.
  destruct (choices response) as [|[raw|] rest]; simpl in *;
    destruct Hch as [H|H]; try discriminate; eexists; reflexivity.
Qed.

Lemma generate_malformed_answer_caught_witness :
  fst (LlmApp.generate_sql_with_gpt env_no_choices (of_string "How many?")
         {| session := fresh_session; log := [] |})
  = Ok (None, None).
Proof.
  destruct (generate_malformed_answer_caught
              env_no_choices (of_string "How many?")
              {| session := fresh_session; log := [] |}
              {| choices := [] |} eq_refl eq_refl (or_introl eq_refl))
    as (msg & ->).
  reflexivity.
Defined.

(** ** More on the session *)

(** X9.  The client is made outside the [try]: when it cannot be
    made, a click on "Generate SQL" ends the run with that exception,
    without a call of the model and without a message, after the SQL
    and the question of another question have been reset. *)
Theorem generate_click_without_client_raises :
  forall (env : Env) (ui : LlmApp.Widgets) (s : SessionState) (e : exn),
    LlmApp.generate_clicked ui = true ->
    truthy (LlmApp.question_area ui) = true ->
    new_client env = Raise e ->
    run_main env ui s
    = (Raise e,
       {| session := invalidated (strip (LlmApp.question_area ui))
                                 (initialised s);
          log := [] |}).
Proof.
  intros env ui s e Hg Hq Hc. rewrite run_main_unfold.
  erewrite generate_phase_active by (eassumption || reflexivity).
  cbv zeta. rewrite generate_cases, Hc. reflexivity.
Qed.

Lemma generate_click_without_client_raises_witness :
  run_main env_no_key (click_generate (of_string "question B"))
    {| generated_sql := Some (Some (of_string "SELECT 1"));
       current_question := Some (Some (of_string "question A"));
       query_history := Some [] |}
  = (Raise (PyExc "OpenAIError"
              (of_string "The api_key client option must be set")),
     {| session := {| generated_sql := Some None;
                      current_question := Some None;
                      query_history := Some [] |};
        log := [] |}).
Proof.
  rewrite (generate_click_without_client_raises
             env_no_key (click_generate (of_string "question B"))
             {| generated_sql := Some (Some (of_string "SELECT 1"));
                current_question := Some (Some (of_string "question A"));
                query_history := Some [] |}
             (PyExc "OpenAIError"
                (of_string "The api_key client option must be set"))
             eq_refl eq_refl eq_refl).
  vm_compute. reflexivity.
Defined.

(** X10.  A run raises only the exception of the client that cannot
    be made, and only on a click on "Generate SQL" with a question
    that is not empty: no key of the session state is read before it
    is assigned. *)
Theorem run_raises_only_without_client :
  forall (env : Env) (ui : LlmApp.Widgets) (s : SessionState) (e : exn),
    fst (run_main env ui s) = Raise e ->
    new_client env = Raise e
    /\ LlmApp.generate_clicked ui = true
    /\ truthy (LlmApp.question_area ui) = true.
Proof.
  intros env ui s e. rewrite run_main_unfold.
  destruct (active_cases ui) as [Hi|[Hg Hq]];
    generate_all_cases env ui; try run_all_cases env;
    simpl; try discriminate.
  all: intros [= ->]; auto.
Qed.

Lemma run_raises_only_without_client_witness :
  new_client env_no_key
  = Raise (PyExc "OpenAIError"
             (of_string "The api_key client option must be set")).
Proof.
  apply (run_raises_only_without_client
           env_no_key (click_generate (of_string "How many?")) fresh_session).
  vm_compute. reflexivity.
Defined.

Lemma paired_reset h :
  paired {| generated_sql := Some None;
            current_question := Some None;
            query_history := h |}.
Proof. left. simpl. auto. Qed.

Lemma paired_set g q h :
  truthy g = true -> strip g = g -> strip q = q ->
  paired {| generated_sql := Some (Some g);
            current_question := Some (Some q);
            query_history := h |}.
Proof. intros. right. exists g, q. simpl. auto. Qed.

Lemma paired_assigned s h :
  paired s ->
  paired {| generated_sql :=
              Some match generated_sql s with Some v => v | None => None end;
            current_question :=
              Some match current_question s with Some v => v | None => None end;
            query_history := h |}.
Proof.
  intros [[[-> | ->] [-> | ->]]|(g & q & -> & -> & Hg & Hs & Hq)];
    try apply paired_reset.
  now apply paired_set.
Qed.

Lemma extract_result_trimmed raw r :
  LlmApp.extract_sql_from_response raw = Ok r -> strip r = r.
Proof.
  destruct (extract_strip_form raw) as [x ->].
  intros [= <-]. apply strip_idem.
Qed.

(** A run keeps the generated SQL and the recorded question paired. *)
Lemma paired_step env ui s :
  paired s -> paired (session (snd (run_main env ui s))).
Proof.
  intros P. rewrite run_main_unfold.
  destruct (active_cases ui) as [Hi|[Hg Hq]];
    generate_all_cases env ui; try run_all_cases env;
    first [ apply paired_reset
          | now apply paired_assigned
          | apply paired_set;
            [assumption
            |eapply extract_result_trimmed; eassumption
            |apply strip_idem] ].
Qed.

(** X11.  Along every sequence of runs of a session, the generated
    SQL and the recorded question are unset together or set together;
    a stored SQL is trimmed and not empty, a recorded question is
    trimmed. *)
Theorem session_keeps_sql_and_question_paired :
  forall steps : list (Env * LlmApp.Widgets),
    paired (run_all steps fresh_session).
Proof.
  intros steps.
  assert (G : forall s, paired s -> paired (run_all steps s)).
  { induction steps as [|[env ui] steps IH]; intros s P; [exact P|].
    simpl. apply IH. now apply paired_step. }
  apply G. left. simpl. auto.
Qed.

(** X12.  Along every sequence of runs the history only grows at its
    end, by at most one entry for each run. *)
Theorem history_is_append_only_along_runs :
  forall (steps : list (Env * LlmApp.Widgets)) (s : SessionState),
  exists added,
    history_of (run_all steps s) = history_of s ++ added
    /\ length added <= length steps.
Proof.
  induction steps as [|[env ui] steps IH]; intros s.
  - exists []. rewrite app_nil_r. split; [reflexivity|simpl; lia].
  - simpl run_all.
    destruct (IH (session (snd (run_main env ui s)))) as (a2 & H2 & L2).
    destruct (history_append_only env ui s) as (a1 & H1 & L1).
    exists (a1 ++ a2). rewrite H2, H1, app_assoc.
    split; [reflexivity|rewrite length_app; simpl; lia].
Qed.

(** X13.  When the recorded question is generated again and the call
    of the model fails, the SQL already generated for it stays, and
    the failure is shown. *)
Theorem failed_regeneration_keeps_sql :
  forall (env : Env) (ui : LlmApp.Widgets) (g : str)
         (h : list HistoryEntry) (e : exn),
    LlmApp.generate_clicked ui = true ->
    truthy (LlmApp.question_area ui) = true ->
    new_client env = Ok tt ->
    chat_completions_create env
      (LlmApp.request_of (strip (LlmApp.question_area ui))) = Raise e ->
    let s := {| generated_sql := Some (Some g);
                current_question := Some (Some (strip (LlmApp.question_area ui)));
                query_history := Some h |} in
    let w := snd (run_main env ui s) in
    generated_sql (session w) = Some (Some g)
    /\ current_question (session w)
       = Some (Some (strip (LlmApp.question_area ui)))
    /\ In (st_error (of_string "Error calling OpenAI API: " ++ exn_str e))
          (log w).
Proof.
  intros env ui g h e Hg Hq Hc Hf s w. subst s w.
  rewrite run_main_unfold.
  erewrite generate_phase_active by (eassumption || reflexivity).
  cbv zeta. rewrite generate_cases, Hc. cbv zeta. rewrite Hf.
  unfold invalidated. simpl.
  rewrite (proj2 (str_eqb_eq _ _) eq_refl). simpl.
  run_all_cases env; repeat split; simpl; auto 10.
Qed.

Lemma failed_regeneration_keeps_sql_witness :
  generated_sql
    (session (snd (run_main env_llm_down
                     (click_generate (of_string " question A "))
                     {| generated_sql := Some (Some (of_string "SELECT 1"));
                        current_question := Some (Some (of_string "question A"));
                        query_history := Some [] |})))
  = Some (Some (of_string "SELECT 1")).
Proof.
  apply (failed_regeneration_keeps_sql
           env_llm_down (click_generate (of_string " question A "))
           (of_string "SELECT 1") []
           (PyExc "APIConnectionError" (of_string "Connection error."))
           eq_refl eq_refl eq_refl eq_refl).
Defined.

Lemma truthy_opt_some x :
  truthy_opt x = true -> exists g, x = Some g /\ truthy g = true.
Proof. destruct x as [g|]; [now exists g|discriminate]. Qed.

(** X14.  A statement is sent to the database only on a click on "Run
    Query", when a generated SQL is in the session state and the text
    of the editor is not blank; the statement sent is the text of the
    editor as it is, not trimmed. *)
Theorem statement_sent_is_editor_text :
  forall (env : Env) (ui : LlmApp.Widgets) (s : SessionState) (q : str),
    let w := snd (run_main env ui s) in
    In (ev_read_sql q) (log w) ->
    LlmApp.run_clicked ui = true
    /\ truthy (strip q) = true
    /\ exists g, generated_sql (session w) = Some (Some g)
                 /\ truthy g = true
                 /\ q = LlmApp.sql_editor ui g.
Proof.
  intros env ui s q w. subst w. rewrite run_main_unfold.
  destruct (active_cases ui) as [Hi|[Hg Hq]];
    generate_all_cases env ui; try run_all_cases env;
    intros Hin; in_cases; try congruence.
  all: repeat match goal with
              | H : _ && _ = true |- _ =>
                  apply andb_prop in H; destruct H
              end.
  all: try match goal with
           | H : truthy_opt ?x = true |- _ =>
               let g := fresh "g" in
               destruct (truthy_opt_some _ H) as (g & Hx & Hgt);
               rewrite Hx in *; simpl in *
           end.
  all: repeat split; try assumption; eexists; repeat split; eassumption.
Qed.

Lemma statement_sent_is_editor_text_witness :
  In (ev_read_sql (of_string "SELECT 1 "))
     (log (snd (run_main env_ok
                  (click_run (of_string "How many?")
                             (fun v => v ++ of_string " "))
                  {| generated_sql := Some (Some (of_string "SELECT 1"));
                     current_question := Some (Some (of_string "How many?"));
                     query_history := Some [] |})))
  /\ truthy (strip (of_string "SELECT 1 ")) = true.
Proof.
  assert (Hin : In (ev_read_sql (of_string "SELECT 1 "))
                   (log (snd (run_main env_ok
                                (click_run (of_string "How many?")
                                           (fun v => v ++ of_string " "))
                                {| generated_sql :=
                                     Some (Some (of_string "SELECT 1"));
                                   current_question :=
                                     Some (Some (of_string "How many?"));
                                   query_history := Some [] |}))))
    by (vm_compute; auto 10).
  split; [exact Hin|].
  now destruct (statement_sent_is_editor_text _ _ _ _ Hin) as (_ & H & _).
Defined.

(** X15.  A run calls the language model at most once and sends at
    most one statement to the database; the model is called only on a
    click on "Generate SQL" with a question that is not empty. *)
Theorem one_call_and_one_statement_per_run :
  forall (env : Env) (ui : LlmApp.Widgets) (s : SessionState),
    let w := snd (run_main env ui s) in
    length (chat_calls (log w)) <= 1
    /\ length (reads (log w)) <= 1
    /\ (chat_calls (log w) <> [] ->
        LlmApp.generate_clicked ui = true
        /\ truthy (LlmApp.question_area ui) = true).
Proof.
  intros env ui s w. subst w. rewrite run_main_unfold.
  destruct (active_cases ui) as [Hi|[Hg Hq]];
    generate_all_cases env ui; try run_all_cases env;
    (split; [simpl; lia|split; [simpl; lia|]]);
    simpl; intros H; try (now split); now contradiction H.
Qed.

(** X16.  When the answer of the model holds a fenced block and no
    fence directly followed by the letters [sql] that a later fence
    closes, a click on "Generate SQL" for a new question leaves no SQL
    in the session state and shows no message: the extractor gave the
    empty string, which is not kept. *)
Theorem untagged_answer_leaves_no_sql :
  forall (env : Env) (ui : LlmApp.Widgets) (s : SessionState)
         (response : ChatCompletion) (raw_text b : str)
         (rest : list (option str)),
    LlmApp.generate_clicked ui = true ->
    truthy (LlmApp.question_area ui) = true ->
    current_question s <> Some (Some (strip (LlmApp.question_area ui))) ->
    new_client env = Ok tt ->
    chat_completions_create env
      (LlmApp.request_of (strip (LlmApp.question_area ui))) = Ok response ->
    choices response = Some raw_text :: rest ->
    first_sql_opening raw_text = None ->
    Spec.first_generic_block raw_text = Some b ->
    run_main env ui s
    = (Ok tt,
       {| session := {| generated_sql := Some None;
                        current_question := Some None;
                        query_history := Some (history_of s) |};
          log := [ev_chat (LlmApp.request_of (strip (LlmApp.question_area ui)))
                          {| generated_sql := Some None;
                             current_question := Some None;
                             query_history := Some (history_of s) |}] |}).
Proof.
  intros env ui s response raw_text b rest Hg Hq Hne Hc Hr Hch Hs Hb.
  apply recorded_differs in Hne.
  rewrite run_main_unfold.
  erewrite generate_phase_active by (eassumption || reflexivity).
  cbv zeta. rewrite generate_cases, Hc. cbv zeta.
  rewrite Hr, (content_of_first _ _ _ Hch),
    (extract_generic_is_empty _ _ Hs Hb).
  unfold invalidated. simpl. rewrite Hne. simpl.
  erewrite run_phase_cases by reflexivity. reflexivity.
Qed.

Lemma untagged_answer_leaves_no_sql_witness :
  run_main env_generic_answer (click_generate (of_string "How many?"))
    fresh_session
  = (Ok tt,
     {| session := {| generated_sql := Some None;
                      current_question := Some None;
                      query_history := Some [] |};
        log := [ev_chat (LlmApp.request_of (of_string "How many?"))
                        {| generated_sql := Some None;
                           current_question := Some None;
                           query_history := Some [] |}] |}).
Proof.
  assert (Hne : current_question fresh_session
                <> Some (Some (strip (LlmApp.question_area
                                        (click_generate (of_string "How many?"))))))
    by discriminate.
  assert (Hs : first_sql_opening
                 (of_string ("```" ++ nl ++ "SELECT 1" ++ nl ++ "```")%string)
               = None) by (vm_compute; reflexivity).
  assert (Hb : Spec.first_generic_block
                 (of_string ("```" ++ nl ++ "SELECT 1" ++ nl ++ "```")%string)
               = Some (of_string (nl ++ "SELECT 1" ++ nl)%string))
    by (vm_compute; reflexivity).
  rewrite (untagged_answer_leaves_no_sql
             env_generic_answer (click_generate (of_string "How many?"))
             fresh_session _ _ _ [] eq_refl eq_refl Hne eq_refl eq_refl
             eq_refl Hs Hb).
  vm_compute. reflexivity.
Defined.

(** X17.  When the model answers and the extractor gives a text that
    is not empty, a click on "Generate SQL" stores that text with the
    trimmed question, and leaves the history as it is. *)
Theorem generation_records_sql_and_question :
  forall (env : Env) (ui : LlmApp.Widgets) (s : SessionState)
         (response : ChatCompletion) (raw_text sql_query : str)
         (rest : list (option str)),
    LlmApp.generate_clicked ui = true ->
    truthy (LlmApp.question_area ui) = true ->
    LlmApp.run_clicked ui = false ->
    new_client env = Ok tt ->
    chat_completions_create env
      (LlmApp.request_of (strip (LlmApp.question_area ui))) = Ok response ->
    choices response = Some raw_text :: rest ->
    LlmApp.extract_sql_from_response raw_text = Ok sql_query ->
    truthy sql_query = true ->
    fst (run_main env ui s) = Ok tt
    /\ session (snd (run_main env ui s))
       = {| generated_sql := Some (Some sql_query);
            current_question :=
              Some (Some (strip (LlmApp.question_area ui)));
            query_history := Some (history_of s) |}.
Proof.
  intros env ui s response raw_text sql_query rest
         Hg Hq Hrun Hc Hr Hch Hx Ht.
  rewrite run_main_unfold.
  erewrite generate_phase_active by (eassumption || reflexivity).
  cbv zeta. rewrite generate_cases, Hc. cbv zeta.
  rewrite Hr, (content_of_first _ _ _ Hch), Hx.
  unfold invalidated. simpl.
  destruct (opt_neq _ _); simpl; rewrite Ht; simpl;
    (erewrite run_phase_cases by reflexivity); simpl;
    rewrite Ht, Hrun; simpl; split; reflexivity.
Qed.

Lemma generation_records_sql_and_question_witness :
  session (snd (run_main env_ok (click_generate (of_string " How many? "))
                  fresh_session))
  = {| generated_sql := Some (Some (of_string "SELECT 1"));
       current_question := Some (Some (of_string "How many?"));
       query_history := Some [] |}.
Proof.
  assert (Hx : LlmApp.extract_sql_from_response fenced_answer
               = Ok (of_string "SELECT 1")) by (vm_compute; reflexivity).
  destruct (generation_records_sql_and_question
              env_ok (click_generate (of_string " How many? ")) fresh_session
              {| choices := [Some fenced_answer] |} fenced_answer
              (of_string "SELECT 1") []
              eq_refl eq_refl eq_refl eq_refl eq_refl eq_refl Hx eq_refl)
    as [_ ->].
  vm_compute. reflexivity.
Defined.

(** ** [app.py] *)

Arguments App.query_db : simpl never.
Arguments App.request_of : simpl never.

(** The outcomes of [query_db]. *)
Lemma query_db_cases env sq w :
  App.query_db env sq w
  = match sqlite3_connect env with
    | Raise e =>
        (Raise e, {| session := session w; log := log w ++ [ev_connect] |})
    | Ok _ =>
        match sq with
        | Some q =>
            match read_sql_query env q with
            | Ok df =>
                (Ok df,
                 {| session := session w;
                    log := log w ++ [ev_connect; ev_read_sql q; ev_close] |})
            | Raise e =>
                (Ok empty_frame,
                 {| session := session w;
                    log := log w ++
                           [ev_connect; ev_read_sql q;
                            st_error (of_string "SQL error: " ++ exn_str e);
                            ev_close] |})
            end
        | None =>
            (Ok empty_frame,
             {| session := session w;
                log := log w ++
                       [ev_connect;
                        st_error
                          (of_string "SQL error: "
                           ++ of_string
                                "execute() argument 1 must be str, not None");
                        ev_close] |})
        end
    end.
Proof.
  unfold App.query_db. unfold_monad. simpl.
  destruct (sqlite3_connect env) as [[]|e]; simpl; [|reflexivity].
  destruct sq as [q|]; simpl;
    [destruct (read_sql_query env q) as [df|e]; simpl|];
    rewrite <- ?app_assoc; reflexivity.
Qed.

(** X18.  Once the connection is open [query_db] raises nothing and
    closes it as its last step, whether the statement was accepted or
    not; an accepted statement gives its table and no message. *)
Theorem query_db_closes_connection :
  forall (env : Env) (sq : option str) (w : World),
    sqlite3_connect env = Ok tt ->
    exists df mid,
      App.query_db env sq w
      = (Ok df,
         {| session := session w;
            log := log w ++ ev_connect :: mid ++ [ev_close] |})
      /\ opened mid = 0 /\ closed mid = 0
      /\ (forall q d, sq = Some q -> read_sql_query env q = Ok d ->
                      df = d /\ mid = [ev_read_sql q]).
Proof.
  intros env sq w Hc. rewrite query_db_cases, Hc.
  destruct sq as [q|]; [destruct (read_sql_query env q) as [df|e] eqn:E|];
    do 2 eexists;
    (split; [cbn [app]; repeat f_equal;
             match goal with
             | |- ?l = ?m ++ [ev_close] =>
                 first [ instantiate (1 := [ev_read_sql q]); reflexivity
                       | instantiate (1 := [ev_read_sql q; st_error _]);
                         reflexivity
                       | instantiate (1 := [st_error _]); reflexivity ]
             end|]);
    (split; [reflexivity|]); (split; [reflexivity|]);
    intros q' d Hq Hr; try discriminate;
    injection Hq as <-; rewrite E in Hr; try discriminate;
    injection Hr as <-; now split.
Qed.

Lemma query_db_closes_connection_witness :
  App.query_db env_ok (Some (of_string "SELECT 1"))
    {| session := fresh_session; log := [] |}
  = (Ok sample_frame,
     {| session := fresh_session;
        log := [ev_connect; ev_read_sql (of_string "SELECT 1"); ev_close] |}).
Proof.
  destruct (query_db_closes_connection
              env_ok (Some (of_string "SELECT 1"))
              {| session := fresh_session; log := [] |} eq_refl)
    as (df & mid & -> & _ & _ & H).
  destruct (H (of_string "SELECT 1") sample_frame eq_refl eq_refl) as [-> ->].
  reflexivity.
Defined.

(** X19.  [query_db] opens the connection outside its [try]: when the
    database cannot be opened the exception leaves [query_db] and the
    section "Run a Custom SQL Query" that called it, with no message,
    no statement sent, nothing to close and no table shown. *)
Theorem query_db_connect_failure_escapes :
  forall (env : Env) (user_query : str) (w : World) (e : exn),
    sqlite3_connect env = Raise e ->
    strip user_query <> [] ->
    let w' := {| session := session w; log := log w ++ [ev_connect] |} in
    App.query_db env (Some user_query) w = (Raise e, w')
    /\ App.custom_query env user_query true w = (Raise e, w').
Proof.
  intros env user_query w e H Hne w'. subst w'.
  assert (Q : App.query_db env (Some user_query) w
              = (Raise e, {| session := session w;
                             log := log w ++ [ev_connect] |}))
    by now rewrite query_db_cases, H.
  split; [exact Q|].
  unfold App.custom_query.
  destruct (PyStr.eqb (strip user_query) []) eqn:E.
  - apply str_eqb_eq in E. contradiction.
  - simpl. unfold bind. now rewrite Q.
Qed.

Lemma query_db_connect_failure_escapes_witness :
  fst (App.custom_query env_no_database (of_string "SELECT 1") true
         {| session := fresh_session; log := [] |})
  = Raise (PyExc "OperationalError" (of_string "unable to open database file")).
Proof.
  assert (Hne : strip (of_string "SELECT 1") <> [])
    by (vm_compute; discriminate).
  destruct (query_db_connect_failure_escapes
              env_no_database (of_string "SELECT 1")
              {| session := fresh_session; log := [] |}
              (PyExc "OperationalError"
                 (of_string "unable to open database file")) eq_refl Hne)
    as [_ ->].
  reflexivity.
Defined.

(** X20.  The section "Ask a Question (OpenAI)" sends the answer of
    the model to the database as it is, fences and prose included: no
    extraction takes place in [app.py]. *)
Theorem ask_ai_runs_answer_verbatim :
  forall (env : Env) (user_prompt : str) (w : World)
         (response : ChatCompletion) (answer : str)
         (rest : list (option str)),
    strip user_prompt <> [] ->
    sqlite3_connect env = Ok tt ->
    chat_completions_create env
      (App.request_of
         (of_string "Generate a valid SQLite query for this database: "
          ++ user_prompt)) = Ok response ->
    choices response = Some answer :: rest ->
    let w' := snd (App.ask_ai env user_prompt true w) in
    fst (App.ask_ai env user_prompt true w) = Ok tt
    /\ exists tail,
         log w' = log w ++ tail
         /\ reads tail = [ev_read_sql answer]
         /\ In (st_code answer) tail
         /\ length (frames tail) = 1.
Proof.
  intros env user_prompt w response answer rest Hne Hc Hr Hch w'. subst w'.
  unfold App.ask_ai.
  destruct (PyStr.eqb (strip user_prompt) []) eqn:E;
    [apply str_eqb_eq in E; contradiction|].
  unfold App.ask_openai. unfold_monad. simpl. rewrite Hr. simpl.
  unfold py_index. rewrite Hch. simpl.
  rewrite query_db_cases, Hc.
  destruct (read_sql_query env answer) as [df|e]; simpl;
    (split; [reflexivity|]); rewrite <- !app_assoc; simpl;
    eexists; (split; [reflexivity|]); simpl; auto.
Qed.

Lemma ask_ai_runs_answer_verbatim_witness :
  exists tail,
    log (snd (App.ask_ai env_ok (of_string "How many patients?") true
                {| session := fresh_session; log := [] |})) = [] ++ tail
    /\ reads tail = [ev_read_sql fenced_answer].
Proof.
  assert (Hne : strip (of_string "How many patients?") <> [])
    by (vm_compute; discriminate).
  destruct (ask_ai_runs_answer_verbatim
              env_ok (of_string "How many patients?")
              {| session := fresh_session; log := [] |}
              {| choices := [Some fenced_answer] |} fenced_answer []
              Hne eq_refl eq_refl eq_refl)
    as (_ & tail & H1 & H2 & _).
  exists tail. split; assumption.
Defined.

(** X21.  The section "Run a Custom SQL Query" does nothing unless its
    button is clicked on a text that is not blank; then, with the
    database open, it sends the text as typed, not trimmed, and shows
    one table, which is empty when the statement failed. *)
Theorem custom_query_runs_text_as_typed :
  forall (env : Env) (user_query : str) (clicked : bool) (w : World),
    sqlite3_connect env = Ok tt ->
    (clicked = false \/ strip user_query = [] ->
     App.custom_query env user_query clicked w = (Ok tt, w))
    /\ (clicked = true -> strip user_query <> [] ->
        exists df mid,
          App.custom_query env user_query clicked w
          = (Ok tt,
             {| session := session w;
                log := log w ++
                       [ev_connect; ev_read_sql user_query] ++ mid
                       ++ [ev_close; st_dataframe df] |})
          /\ (forall d, read_sql_query env user_query = Ok d ->
                        df = d /\ mid = [])
          /\ (forall e, read_sql_query env user_query = Raise e ->
                        df = empty_frame
                        /\ mid = [st_error (of_string "SQL error: "
                                            ++ exn_str e)])).
Proof.
  intros env user_query clicked w Hc. unfold App.custom_query. split.
  - intros [-> | H]; [reflexivity|].
    rewrite H. destruct clicked; reflexivity.
  - intros -> Hne.
    destruct (PyStr.eqb (strip user_query) []) eqn:E;
      [apply str_eqb_eq in E; contradiction|].
    simpl. unfold_monad. rewrite query_db_cases, Hc.
    destruct (read_sql_query env user_query) as [df|e]; simpl;
      rewrite <- !app_assoc; simpl.
    + exists df, []. repeat split; congruence.
    + exists empty_frame, [st_error (of_string "SQL error: " ++ exn_str e)].
      repeat split; congruence.
Qed.

Lemma custom_query_runs_text_as_typed_witness :
  App.custom_query env_ok (of_string "   ") true
    {| session := fresh_session; log := [] |}
  = (Ok tt, {| session := fresh_session; log := [] |})
  /\ reads (log (snd (App.custom_query env_ok (of_string " SELECT 1 ") true
                        {| session := fresh_session; log := [] |})))
     = [ev_read_sql (of_string " SELECT 1 ")].
Proof.
  split.
  - apply (custom_query_runs_text_as_typed
             env_ok (of_string "   ") true
             {| session := fresh_session; log := [] |} eq_refl).
    right. vm_compute. reflexivity.
  - assert (Hne : strip (of_string " SELECT 1 ") <> [])
      by (vm_compute; discriminate).
    destruct (custom_query_runs_text_as_typed
                env_ok (of_string " SELECT 1 ") true
                {| session := fresh_session; log := [] |} eq_refl)
      as [_ H].
    destruct (H eq_refl Hne) as (df & mid & -> & Hd & _).
    destruct (Hd sample_frame eq_refl) as [_ ->].
    reflexivity.
Defined.

Arguments App.custom_query : simpl never.
Arguments App.ask_ai : simpl never.
Arguments App.column : simpl never.
Arguments App.set_index : simpl never.

Lemma opened_app l1 l2 : opened (l1 ++ l2) = opened l1 + opened l2.
Proof. unfold opened. now rewrite filter_app, length_app. Qed.

Lemma closed_app l1 l2 : closed (l1 ++ l2) = closed l1 + closed l2.
Proof. unfold closed. now rewrite filter_app, length_app. Qed.

Lemma chat_calls_split l1 l2 :
  chat_calls (l1 ++ l2) = chat_calls l1 ++ chat_calls l2.
Proof. apply filter_app. Qed.

(** With the database open, [query_db] returns, calls no model and
    closes what it opened. *)
Lemma query_db_frame env sq w :
  sqlite3_connect env = Ok tt ->
  exists df tail,
    App.query_db env sq w
    = (Ok df, {| session := session w; log := log w ++ tail |})
    /\ chat_calls tail = []
    /\ opened tail = closed tail.
Proof.
  intros Hc. rewrite query_db_cases, Hc.
  destruct sq as [q|]; [destruct (read_sql_query env q) as [df|e]|];
    do 2 eexists; (split; [reflexivity|]); split; reflexivity.
Qed.

Lemma custom_query_frame env uq clicked w :
  sqlite3_connect env = Ok tt ->
  exists tail,
    App.custom_query env uq clicked w
    = (Ok tt, {| session := session w; log := log w ++ tail |})
    /\ chat_calls tail = []
    /\ opened tail = closed tail.
Proof.
  intros Hc. unfold App.custom_query.
  destruct clicked; [destruct (negb (PyStr.eqb (strip uq) []))|].
  - unfold_monad.
    destruct (query_db_frame env (Some uq) w Hc) as (df & tail & -> & H1 & H2).
    simpl. exists (tail ++ [st_dataframe df]).
    rewrite app_assoc, chat_calls_split, opened_app, closed_app, H1, H2.
    repeat split.
  - exists []. destruct w. simpl. now rewrite app_nil_r.
  - exists []. destruct w. simpl. now rewrite app_nil_r.
Qed.

Lemma ask_ai_frame env p clicked w :
  sqlite3_connect env = Ok tt ->
  exists r tail,
    App.ask_ai env p clicked w
    = (r, {| session := session w; log := log w ++ tail |})
    /\ opened tail = closed tail.
Proof.
  intros Hc. unfold App.ask_ai.
  destruct clicked; [destruct (negb (PyStr.eqb (strip p) []))|].
  - unfold App.ask_openai. unfold_monad. simpl.
    destruct (chat_completions_create env _) as [resp|e]; simpl;
      [|do 2 eexists; split; reflexivity].
    destruct (py_index (choices resp) 0) as [a|e]; simpl;
      [|do 2 eexists; split; reflexivity].
    match goal with
    | |- context [App.query_db env ?sq ?w0] =>
        destruct (query_db_frame env sq w0 Hc) as (df & tail & -> & H1 & H2)
    end.
    simpl. do 2 eexists. split.
    + rewrite <- !app_assoc. reflexivity.
    + unfold opened, closed in *. simpl.
      rewrite !filter_app, !length_app. simpl. lia.
  - exists (Ok tt), []. destruct w. simpl. now rewrite app_nil_r.
  - exists (Ok tt), []. destruct w. simpl. now rewrite app_nil_r.
Qed.

(** X22.  When the list of the tables cannot be read the script stops
    with that exception: the read is outside any [try], the connection
    it opened is not closed and nothing is shown. *)
Theorem script_stops_when_listing_fails :
  forall (env : Env) (pg : App.Page) (e : exn),
    sqlite3_connect env = Ok tt ->
    read_sql_query env App.tables_query = Raise e ->
    run_script env pg
    = (Raise e,
       {| session := fresh_session;
          log := [ev_connect; ev_read_sql App.tables_query] |}).
Proof.
  intros env pg e Hc Hr. unfold run_script, App.script. unfold_monad.
  simpl. rewrite Hc. simpl. now rewrite Hr.
Qed.

Lemma script_stops_when_listing_fails_witness :
  opened (log (snd (run_script env_listing_fails (page_ask []))))  = 1
  /\ closed (log (snd (run_script env_listing_fails (page_ask [])))) = 0.
Proof.
  rewrite (script_stops_when_listing_fails
             env_listing_fails (page_ask [])
             (PyExc "DatabaseError" (of_string "file is not a database"))
             eq_refl eq_refl).
  split; reflexivity.
Defined.

Ltac step_query_db env Hc :=
  match goal with
  | |- context [App.query_db env ?sq ?w0] =>
      let df := fresh "df" in
      let tail := fresh "tail" in
      let Hn := fresh "Hn" in
      let Hb := fresh "Hb" in
      destruct (query_db_frame env sq w0 Hc) as (df & tail & -> & Hn & Hb);
      simpl
  end.

(** X23.  When the statement of the laboratory counts fails, the
    script shows the error and the empty table and then stops with a
    [KeyError]: the empty table has no column to index the chart by.
    The sections of the custom statement and of the question are not
    reached, so that no model is called. *)
Theorem script_stops_when_lab_counts_fail :
  forall (env : Env) (pg : App.Page) (tables : DataFrame)
         (names : list str) (e : exn),
    sqlite3_connect env = Ok tt ->
    read_sql_query env App.tables_query = Ok tables ->
    App.column tables (of_string "name") = Ok names ->
    read_sql_query env App.lab_counts_query = Raise e ->
    exists msg before,
      fst (run_script env pg) = Raise (PyExc "KeyError" msg)
      /\ log (snd (run_script env pg))
         = before ++ [ev_connect; ev_read_sql App.lab_counts_query;
                      st_error (of_string "SQL error: " ++ exn_str e);
                      ev_close; st_dataframe empty_frame]
      /\ chat_calls (log (snd (run_script env pg))) = [].
Proof.
  intros env pg tables names e Hc Ht Hn He.
  unfold run_script, App.script. unfold_monad. simpl.
  rewrite Hc. simpl. rewrite Ht. simpl. rewrite Hn. simpl.
  destruct (truthy_opt (App.selectbox pg names)); simpl;
    [step_query_db env Hc|]; step_query_db env Hc;
    rewrite query_db_cases, Hc, He; simpl;
    do 2 eexists; (split; [reflexivity|]);
    (split; [match goal with
             | |- ?a :: ?b :: ?c :: (?X ++ ?Y) ++ ?Z = _ =>
                 transitivity ((a :: b :: c :: X) ++ (Y ++ Z));
                 [now rewrite <- (app_assoc X Y Z)|reflexivity]
             end|]);
    rewrite !chat_calls_split; simpl;
    repeat match goal with H : chat_calls _ = [] |- _ => rewrite H end;
    reflexivity.
Qed.

Lemma script_stops_when_lab_counts_fail_witness :
  chat_calls (log (snd (run_script env_labs_missing
                          (page_ask (of_string "How many patients?"))))) = []
  /\ exists msg,
       fst (run_script env_labs_missing
              (page_ask (of_string "How many patients?")))
       = Raise (PyExc "KeyError" msg).
Proof.
  destruct (script_stops_when_lab_counts_fail
              env_labs_missing (page_ask (of_string "How many patients?"))
              tables_frame [of_string "patients"]
              (PyExc "DatabaseError" (of_string "no such table: stage_labs")))
    as (msg & before & H1 & _ & H3);
    try (vm_compute; reflexivity).
  split; [exact H3|]. exists msg. exact H1.
Defined.

(** X24.  Once the list of the tables is read, a run of the script
    closes every connection it opens, however it ends: each later
    statement goes through [query_db]. *)
Theorem script_closes_every_connection :
  forall (env : Env) (pg : App.Page) (tables : DataFrame),
    sqlite3_connect env = Ok tt ->
    read_sql_query env App.tables_query = Ok tables ->
    opened (log (snd (run_script env pg)))
    = closed (log (snd (run_script env pg))).
Proof.
  intros env pg tables Hc Ht.
  unfold run_script, App.script. unfold_monad. simpl.
  rewrite Hc. simpl. rewrite Ht. simpl.
  destruct (App.column tables (of_string "name")) as [names|e]; simpl;
    [|reflexivity].
  destruct (truthy_opt (App.selectbox pg names)); simpl;
    [step_query_db env Hc|]; do 2 step_query_db env Hc.
  all: match goal with
       | |- context [App.set_index ?d ?k] =>
           destruct (App.set_index d k) as [ix|e]; simpl
       end.
  all: try match goal with
           | H : sqlite3_connect ?v = Ok tt
             |- context [App.custom_query ?v ?q ?c ?w0] =>
               destruct (custom_query_frame v q c w0 H)
                 as (? & -> & _ & ?); simpl
           end.
  all: try match goal with
           | H : sqlite3_connect ?v = Ok tt
             |- context [App.ask_ai ?v ?q ?c ?w0] =>
               let r2 := fresh "r" in
               destruct (ask_ai_frame v q c w0 H)
                 as (r2 & ? & -> & ?); simpl; destruct r2; simpl
           end.
  all: repeat match goal with
              | |- context [?a :: ?b :: ?c :: (?L ++ ?M)] =>
                  change (a :: b :: c :: (L ++ M))
                    with ([a; b; c] ++ (L ++ M))
              end;
    rewrite ?opened_app, ?closed_app;
    unfold opened, closed in *; simpl; lia.
Qed.

Lemma script_closes_every_connection_witness :
  fst (run_script env_app_ok (page_ask (of_string "How many?"))) = Ok tt
  /\ opened (log (snd (run_script env_app_ok
                         (page_ask (of_string "How many?"))))) = 5
  /\ closed (log (snd (run_script env_app_ok
                         (page_ask (of_string "How many?"))))) = 5.
Proof.
  assert (H := script_closes_every_connection
                 env_app_ok (page_ask (of_string "How many?")) wide_frame
                 eq_refl eq_refl).
  assert (H5 : opened (log (snd (run_script env_app_ok
                                   (page_ask (of_string "How many?"))))) = 5)
    by (vm_compute; reflexivity).
  split; [vm_compute; reflexivity|]. split; [exact H5|].
  rewrite <- H. exact H5.
Defined.

(** ** The initialisation of the session *)

Lemma initialised_twice s : initialised (initialised s) = initialised s.
Proof. destruct s as [[g|] [c|] [h|]]; reflexivity. Qed.

(** X25.  A run in which neither "Generate SQL" nor "Run Query" is
    clicked only assigns the keys of the session state that are
    missing, keeps the values of the others, and does so once: a
    second such run changes nothing. *)
Theorem idle_run_only_initialises :
  forall (env env' : Env) (ui ui' : LlmApp.Widgets) (s : SessionState),
    LlmApp.generate_clicked ui = false ->
    LlmApp.run_clicked ui = false ->
    LlmApp.generate_clicked ui' = false ->
    LlmApp.run_clicked ui' = false ->
    fst (run_main env ui s) = Ok tt
    /\ session (snd (run_main env ui s)) = initialised s
    /\ chat_calls (log (snd (run_main env ui s))) = []
    /\ reads (log (snd (run_main env ui s))) = []
    /\ run_all [(env, ui); (env', ui')] s = initialised s.
Proof.
  intros env env' ui ui' s Hg Hr Hg' Hr'.
  assert (G : forall e u x,
             LlmApp.generate_clicked u = false ->
             LlmApp.run_clicked u = false ->
             fst (run_main e u x) = Ok tt
             /\ session (snd (run_main e u x)) = initialised x
             /\ chat_calls (log (snd (run_main e u x))) = []
             /\ reads (log (snd (run_main e u x))) = []).
  { intros e u x H1 H2. rewrite run_main_unfold.
    rewrite generate_phase_idle by (now rewrite H1).
    erewrite run_phase_cases by reflexivity. simpl. rewrite H2. simpl.
    destruct (truthy_opt _); repeat split. }
  destruct (G env ui s Hg Hr) as (A & B & C & D).
  repeat split; try assumption.
  simpl run_all. rewrite B.
  destruct (G env' ui' (initialised s) Hg' Hr') as (_ & -> & _).
  apply initialised_twice.
Qed.

Lemma idle_run_only_initialises_witness :
  run_all [(env_ok, click_clear [] (fun v => v));
           (env_ok, click_clear [] (fun v => v))] fresh_session
  = {| generated_sql := Some None;
       current_question := Some None;
       query_history := Some [] |}.
Proof.
  destruct (idle_run_only_initialises
              env_ok env_ok (click_clear [] (fun v => v))
              (click_clear [] (fun v => v)) fresh_session
              eq_refl eq_refl eq_refl eq_refl)
    as (_ & _ & _ & _ & ->).
  reflexivity.
Defined.
